(** * Liquidity-provision ABCI application and service-registry binding

    A shallow embedding of
    [packages/valory/skills/liquidity_provision/rounds.py] and of
    [packages/valory/contracts/service_registry/contract.py].

    Python dictionaries are finite maps ([gmap]); a dictionary display is
    kept as the list of its [key: value] items in source order and turned
    into a map by inserting the items from left to right, which is what the
    interpreter does.  Methods that may raise return a [Res]. *)

From Stdlib Require Import ZArith String Ascii List.
From stdpp Require Import base option list countable gmap strings fin_maps.

Set Warnings "-register-all".
Local Open Scope string_scope.

(** ** Python values and exceptions *)

Inductive PyVal : Type :=
| PyNone
| PyBool (b : bool)
| PyInt (n : Z)
| PyStr (s : string)
| PyEnum (cls member : string)
| PyList (xs : list PyVal)
| PyDict (items : list (string * PyVal))
| PyPayload (sender : string) (value : PyVal).

Inductive Exn : Type :=
| KeyError (key : string)
| TypeError
| NameError (name : string)
| JSONDecodeError
| AttributeNotSet (key : string)
| UnknownTransitionError.

Inductive Res (A : Type) : Type :=
| Ok (a : A)
| Raise (e : Exn).
Arguments Ok {A} a.
Arguments Raise {A} e.

(** Sequencing: the first exception raised is the one that propagates. *)
#[global] Instance Res_ret : MRet Res := fun _ a => Ok a.
#[global] Instance Res_bind : MBind Res := fun _ _ k m =>
  match m with
  | Ok a => k a
  | Raise e => Raise e
  end.

(** [obj[key]] for a string key. *)
Fixpoint assoc (key : string) (items : list (string * PyVal)) : option PyVal :=
  match items with
  | [] => None
  | (k, v) :: rest => if String.eqb k key then Some v else assoc key rest
  end.

Definition getitem (obj : PyVal) (key : string) : Res PyVal :=
  match obj with
  | PyDict items =>
      match assoc key items with
      | Some v => Ok v
      | None => Raise (KeyError key)
      end
  | _ => Raise TypeError
  end.

(** A dictionary display [{k1: v1, ..., kn: vn}]: the items are stored from
    left to right, so a key written twice keeps the value written last. *)
Definition dict_display `{Countable K} {V : Type}
    (items : list (K * V)) : gmap K V :=
  foldl (fun d kv => <[kv.1 := kv.2]> d) ∅ items.

(** Number of times [key] is written in a dictionary display. *)
Definition key_occurrences `{EqDecision K} {V : Type}
    (key : K) (items : list (K * V)) : nat :=
  length (filter (fun kv => kv.1 = key) items).

(** ** Events *)

Inductive Event : Type :=
| DONE
| EXIT
| ROUND_TIMEOUT
| NO_MAJORITY
| RESET_TIMEOUT
| WAIT.

#[global] Instance Event_eq_dec : EqDecision Event.
Proof. solve_decision. Defined.

Definition Event_to_nat (e : Event) : nat :=
  match e with
  | DONE => 0 | EXIT => 1 | ROUND_TIMEOUT => 2
  | NO_MAJORITY => 3 | RESET_TIMEOUT => 4 | WAIT => 5
  end.

Definition Event_of_nat (n : nat) : Event :=
  match n with
  | 0 => DONE | 1 => EXIT | 2 => ROUND_TIMEOUT
  | 3 => NO_MAJORITY | 4 => RESET_TIMEOUT | _ => WAIT
  end.

#[global] Instance Event_countable : Countable Event.
Proof.
  refine (inj_countable' Event_to_nat Event_of_nat _).
  intros e; destruct e; reflexivity.
Defined.

(** [Event.X.value] *)
Definition Event_value (e : Event) : string :=
  match e with
  | DONE => "done"
  | EXIT => "exit"
  | ROUND_TIMEOUT => "round_timeout"
  | NO_MAJORITY => "no_majority"
  | RESET_TIMEOUT => "reset_timeout"
  | WAIT => "wait"
  end.

(** ** Round classes

    The classes named in the module: the two imported reset rounds, the
    five rounds that define [end_block], and the concrete rounds of the
    three transaction cycles. *)

Inductive RoundCls : Type :=
| ResetRound
| ResetAndPauseRound
| TransactionHashBaseRound
| TransactionSignatureBaseRound
| TransactionSendBaseRound
| TransactionValidationBaseRound
| StrategyEvaluationRound
| EnterPoolTransactionHashRound
| EnterPoolTransactionSignatureRound
| EnterPoolTransactionSendRound
| EnterPoolTransactionValidationRound
| EnterPoolRandomnessRound
| EnterPoolSelectKeeperRound
| ExitPoolTransactionHashRound
| ExitPoolTransactionSignatureRound
| ExitPoolTransactionSendRound
| ExitPoolTransactionValidationRound
| ExitPoolRandomnessRound
| ExitPoolSelectKeeperRound
| SwapBackTransactionHashRound
| SwapBackTransactionSignatureRound
| SwapBackTransactionSendRound
| SwapBackTransactionValidationRound
| SwapBackRandomnessRound
| SwapBackSelectKeeperRound.

#[global] Instance RoundCls_eq_dec : EqDecision RoundCls.
Proof. solve_decision. Defined.

Definition all_round_classes : list RoundCls :=
  [ ResetRound; ResetAndPauseRound; TransactionHashBaseRound;
    TransactionSignatureBaseRound; TransactionSendBaseRound;
    TransactionValidationBaseRound; StrategyEvaluationRound;
    EnterPoolTransactionHashRound; EnterPoolTransactionSignatureRound;
    EnterPoolTransactionSendRound; EnterPoolTransactionValidationRound;
    EnterPoolRandomnessRound; EnterPoolSelectKeeperRound;
    ExitPoolTransactionHashRound; ExitPoolTransactionSignatureRound;
    ExitPoolTransactionSendRound; ExitPoolTransactionValidationRound;
    ExitPoolRandomnessRound; ExitPoolSelectKeeperRound;
    SwapBackTransactionHashRound; SwapBackTransactionSignatureRound;
    SwapBackTransactionSendRound; SwapBackTransactionValidationRound;
    SwapBackRandomnessRound; SwapBackSelectKeeperRound ].

Fixpoint index_of (c : RoundCls) (l : list RoundCls) : nat :=
  match l with
  | [] => 0
  | c' :: rest => if decide (c' = c) then 0 else S (index_of c rest)
  end.

Definition RoundCls_to_nat (c : RoundCls) : nat := index_of c all_round_classes.

Definition RoundCls_of_nat (n : nat) : RoundCls :=
  nth n all_round_classes ResetRound.

#[global] Instance RoundCls_countable : Countable RoundCls.
Proof.
  refine (inj_countable' RoundCls_to_nat RoundCls_of_nat _).
  intros c; destruct c; reflexivity.
Defined.

(** The direct base class of a round class inside this module, if it has
    one here. *)
Definition base_cls (c : RoundCls) : option RoundCls :=
  match c with
  | EnterPoolTransactionHashRound
  | ExitPoolTransactionHashRound
  | SwapBackTransactionHashRound => Some TransactionHashBaseRound
  | EnterPoolTransactionSignatureRound
  | ExitPoolTransactionSignatureRound
  | SwapBackTransactionSignatureRound => Some TransactionSignatureBaseRound
  | EnterPoolTransactionSendRound
  | ExitPoolTransactionSendRound
  | SwapBackTransactionSendRound => Some TransactionSendBaseRound
  | EnterPoolTransactionValidationRound
  | ExitPoolTransactionValidationRound
  | SwapBackTransactionValidationRound => Some TransactionValidationBaseRound
  | _ => None
  end.

(** ** LiquidityProvisionAbciApp *)

Module LiquidityProvisionAbciApp.

Definition initial_round_cls : RoundCls := ResetRound.

(** The display assigned to [transition_function], item by item. *)
Definition transition_function_display
  : list (RoundCls * list (Event * RoundCls)) :=
  [ (ResetRound,
      [ (DONE, StrategyEvaluationRound) ]);
    (StrategyEvaluationRound,
      [ (DONE, EnterPoolTransactionHashRound);
        (WAIT, ResetAndPauseRound);
        (ROUND_TIMEOUT, ResetRound);
        (NO_MAJORITY, ResetRound) ]);
    (EnterPoolTransactionHashRound,
      [ (DONE, EnterPoolTransactionSignatureRound);
        (ROUND_TIMEOUT, ResetRound);
        (NO_MAJORITY, ResetRound) ]);
    (EnterPoolTransactionSignatureRound,
      [ (DONE, EnterPoolTransactionSendRound);
        (ROUND_TIMEOUT, ResetRound);
        (NO_MAJORITY, ResetRound) ]);
    (EnterPoolTransactionSendRound,
      [ (DONE, EnterPoolTransactionValidationRound);
        (ROUND_TIMEOUT, ResetRound);
        (NO_MAJORITY, ResetRound) ]);
    (EnterPoolTransactionValidationRound,
      [ (DONE, ResetAndPauseRound);
        (ROUND_TIMEOUT, ResetRound);
        (NO_MAJORITY, ResetRound);
        (ROUND_TIMEOUT, EnterPoolRandomnessRound) ]);
    (EnterPoolRandomnessRound,
      [ (DONE, EnterPoolSelectKeeperRound);
        (ROUND_TIMEOUT, ResetRound);
        (NO_MAJORITY, ResetRound) ]);
    (EnterPoolSelectKeeperRound,
      [ (DONE, ExitPoolTransactionHashRound);
        (ROUND_TIMEOUT, ResetRound);
        (NO_MAJORITY, ResetRound) ]);
    (ExitPoolTransactionHashRound,
      [ (DONE, ExitPoolTransactionSignatureRound);
        (ROUND_TIMEOUT, ResetRound);
        (NO_MAJORITY, ResetRound) ]);
    (ExitPoolTransactionSignatureRound,
      [ (DONE, ExitPoolTransactionSendRound);
        (ROUND_TIMEOUT, ResetRound);
        (NO_MAJORITY, ResetRound) ]);
    (ExitPoolTransactionSendRound,
      [ (DONE, ExitPoolTransactionValidationRound);
        (ROUND_TIMEOUT, ResetRound);
        (NO_MAJORITY, ResetRound) ]);
    (ExitPoolTransactionValidationRound,
      [ (DONE, SwapBackTransactionHashRound);
        (ROUND_TIMEOUT, ResetRound);
        (NO_MAJORITY, ResetRound);
        (ROUND_TIMEOUT, ExitPoolRandomnessRound) ]);
    (ExitPoolRandomnessRound,
      [ (DONE, ExitPoolSelectKeeperRound);
        (ROUND_TIMEOUT, ResetRound);
        (NO_MAJORITY, ResetRound) ]);
    (ExitPoolSelectKeeperRound,
      [ (DONE, ExitPoolTransactionHashRound);
        (ROUND_TIMEOUT, ResetRound);
        (NO_MAJORITY, ResetRound) ]);
    (SwapBackTransactionHashRound,
      [ (DONE, SwapBackTransactionSignatureRound);
        (ROUND_TIMEOUT, ResetRound);
        (NO_MAJORITY, ResetRound) ]);
    (SwapBackTransactionSignatureRound,
      [ (DONE, SwapBackTransactionSendRound);
        (ROUND_TIMEOUT, ResetRound);
        (NO_MAJORITY, ResetRound) ]);
    (SwapBackTransactionSendRound,
      [ (DONE, SwapBackTransactionValidationRound);
        (ROUND_TIMEOUT, ResetRound);
        (NO_MAJORITY, ResetRound) ]);
    (SwapBackTransactionValidationRound,
      [ (DONE, ResetAndPauseRound);
        (ROUND_TIMEOUT, ResetRound);
        (NO_MAJORITY, ResetRound);
        (ROUND_TIMEOUT, SwapBackRandomnessRound) ]);
    (SwapBackRandomnessRound,
      [ (DONE, SwapBackSelectKeeperRound);
        (ROUND_TIMEOUT, ResetRound);
        (NO_MAJORITY, ResetRound) ]);
    (SwapBackSelectKeeperRound,
      [ (DONE, SwapBackTransactionHashRound);
        (ROUND_TIMEOUT, ResetRound);
        (NO_MAJORITY, ResetRound) ]);
    (ResetAndPauseRound,
      [ (DONE, StrategyEvaluationRound);
        (RESET_TIMEOUT, ResetRound);
        (NO_MAJORITY, ResetRound) ]) ].

(** The value of [transition_function] once the class body has run. *)
Definition transition_function : gmap RoundCls (gmap Event RoundCls) :=
  dict_display
    (map (fun item => (item.1, dict_display item.2))
         transition_function_display).

(** The items written for one round class in the display. *)
Definition display_items (c : RoundCls) : list (Event * RoundCls) :=
  match filter (fun item => item.1 = c) transition_function_display with
  | item :: _ => item.2
  | [] => []
  end.

(** [transition_function[c][e]], [None] when either key is missing. *)
Definition next_round_cls (c : RoundCls) (e : Event) : option RoundCls :=
  d ← transition_function !! c; d !! e.

(** The classes that are keys of the table. *)
Definition table_keys : list RoundCls :=
  map fst transition_function_display.

(** For every class of the table but the initial one, a class and an event
    that lead to it; following them back ends at the initial class. *)
Definition predecessor (c : RoundCls) : option (RoundCls * Event) :=
  match c with
  | StrategyEvaluationRound => Some (ResetRound, DONE)
  | ResetAndPauseRound => Some (StrategyEvaluationRound, WAIT)
  | EnterPoolTransactionHashRound => Some (StrategyEvaluationRound, DONE)
  | EnterPoolTransactionSignatureRound =>
      Some (EnterPoolTransactionHashRound, DONE)
  | EnterPoolTransactionSendRound =>
      Some (EnterPoolTransactionSignatureRound, DONE)
  | EnterPoolTransactionValidationRound =>
      Some (EnterPoolTransactionSendRound, DONE)
  | EnterPoolRandomnessRound =>
      Some (EnterPoolTransactionValidationRound, ROUND_TIMEOUT)
  | EnterPoolSelectKeeperRound => Some (EnterPoolRandomnessRound, DONE)
  | ExitPoolTransactionHashRound => Some (EnterPoolSelectKeeperRound, DONE)
  | ExitPoolTransactionSignatureRound =>
      Some (ExitPoolTransactionHashRound, DONE)
  | ExitPoolTransactionSendRound =>
      Some (ExitPoolTransactionSignatureRound, DONE)
  | ExitPoolTransactionValidationRound =>
      Some (ExitPoolTransactionSendRound, DONE)
  | ExitPoolRandomnessRound =>
      Some (ExitPoolTransactionValidationRound, ROUND_TIMEOUT)
  | ExitPoolSelectKeeperRound => Some (ExitPoolRandomnessRound, DONE)
  | SwapBackTransactionHashRound =>
      Some (ExitPoolTransactionValidationRound, DONE)
  | SwapBackTransactionSignatureRound =>
      Some (SwapBackTransactionHashRound, DONE)
  | SwapBackTransactionSendRound =>
      Some (SwapBackTransactionSignatureRound, DONE)
  | SwapBackTransactionValidationRound =>
      Some (SwapBackTransactionSendRound, DONE)
  | SwapBackRandomnessRound =>
      Some (SwapBackTransactionValidationRound, ROUND_TIMEOUT)
  | SwapBackSelectKeeperRound => Some (SwapBackRandomnessRound, DONE)
  | _ => None
  end.

End LiquidityProvisionAbciApp.


(** ** Period state *)

Record PeriodState : Type := { db : gmap string PyVal }.

(** Modelled from the spec: [db.get_strict] belongs to
    [abstract_round_abci.base], which is not part of these sources.  Reading
    an attribute that was never set fails; an attribute that was set is
    returned, whatever its value. *)
Definition get_strict (d : gmap string PyVal) (key : string) : Res PyVal :=
  match d !! key with
  | Some v => Ok v
  | None => Raise (AttributeNotSet key)
  end.

(** Modelled from the spec: [BasePeriodState.update] belongs to
    [abstract_round_abci.base].  An update creates a new snapshot that copies
    all prior attributes and overwrites or adds the named ones. *)
Definition update (s : PeriodState) (kwargs : list (string * PyVal))
  : PeriodState :=
  {| db := foldl (fun d kv => <[kv.1 := kv.2]> d) (db s) kwargs |}.

Definition most_voted_strategy (s : PeriodState) : Res PyVal :=
  get_strict (db s) "most_voted_strategy".

Definition participant_to_votes (s : PeriodState) : Res PyVal :=
  get_strict (db s) "participant_to_votes".

Definition participant_to_strategy (s : PeriodState) : Res PyVal :=
  get_strict (db s) "participant_to_strategy".

Definition participant_to_tx_hash (s : PeriodState) : Res PyVal :=
  get_strict (db s) "participant_to_tx_hash".

Definition most_voted_keeper_address (s : PeriodState) : Res PyVal :=
  get_strict (db s) "most_voted_keeper_address".

Definition safe_contract_address (s : PeriodState) : Res PyVal :=
  get_strict (db s) "safe_contract_address".

Definition multisend_contract_address (s : PeriodState) : Res PyVal :=
  get_strict (db s) "multisend_contract_address".

Definition router_contract_address (s : PeriodState) : Res PyVal :=
  get_strict (db s) "router_contract_address".

Definition participant_to_signature (s : PeriodState) : Res PyVal :=
  get_strict (db s) "participant_to_signature".

Definition most_voted_tx_hash (s : PeriodState) : Res PyVal :=
  get_strict (db s) "most_voted_tx_hash".

Definition most_voted_tx_data (s : PeriodState) : Res PyVal :=
  get_strict (db s) "most_voted_tx_data".

Definition final_tx_hash (s : PeriodState) : Res PyVal :=
  get_strict (db s) "final_tx_hash".

(** The property accessors of [PeriodState], each with the name under which
    Python exposes it. *)
Definition PeriodState_properties
  : list (string * (PeriodState -> Res PyVal)) :=
  [ ("most_voted_strategy", most_voted_strategy);
    ("participant_to_votes", participant_to_votes);
    ("participant_to_strategy", participant_to_strategy);
    ("participant_to_tx_hash", participant_to_tx_hash);
    ("most_voted_keeper_address", most_voted_keeper_address);
    ("safe_contract_address", safe_contract_address);
    ("multisend_contract_address", multisend_contract_address);
    ("router_contract_address", router_contract_address);
    ("participant_to_signature", participant_to_signature);
    ("most_voted_tx_hash", most_voted_tx_hash);
    ("most_voted_tx_data", most_voted_tx_data);
    ("final_tx_hash", final_tx_hash) ].

(** ** Rounds *)

(** A round object: its class, the period state it was created with
    ([self._state]), the payloads collected so far ([self.collection], keyed
    by sender, in insertion order) and the keeper's payload
    ([self.keeper_payload], [None] until the keeper has sent). *)
Record Round : Type := {
  round_cls : RoundCls;
  _state : PeriodState;
  collection : list (string * PyVal);
  keeper_payload : PyVal
}.

(** What the module imports and does not define: the members of the generic
    round classes of [abstract_round_abci.base] that [end_block] reads,
    [json.loads], and the comparison with [StrategyType.GO]. *)
Class Imports : Type := {
  nb_participants : PeriodState -> nat;
  threshold_reached : Round -> bool;
  most_voted_payload : Round -> PyVal;
  collection_threshold_reached : Round -> bool;
  is_majority_possible : list (string * PyVal) -> nat -> bool;
  has_keeper_sent_payload : Round -> bool;
  positive_vote_threshold_reached : Round -> bool;
  negative_vote_threshold_reached : Round -> bool;
  json_loads : PyVal -> Res PyVal;
  eq_StrategyType_GO : PyVal -> bool
}.

(** [MappingProxyType(d)]: a read-only view with the items of [d]. *)
Definition MappingProxyType (d : list (string * PyVal)) : PyVal := PyDict d.

(** *** LiquidityProvisionAbstractRound *)

Definition period_state (r : Round) : PeriodState := _state r.

Definition _return_no_majority_event (r : Round) : PeriodState * Event :=
  (period_state r, NO_MAJORITY).

(** *** TransactionHashBaseRound *)

Definition TransactionHashBaseRound_end_block `{Imports} (r : Round)
  : Res (option (PeriodState * Event)) :=
  if threshold_reached r then
    dict_ ← json_loads (most_voted_payload r);
    tx_hash ← getitem dict_ "tx_hash";
    tx_data ← getitem dict_ "tx_data";
    let state :=
      update (period_state r)
        [ ("participant_to_tx_hash", MappingProxyType (collection r));
          ("most_voted_tx_hash", tx_hash);
          ("most_voted_tx_data", tx_data) ] in
    Ok (Some (state, DONE))
  else if negb (is_majority_possible (collection r)
                  (nb_participants (period_state r))) then
    Ok (Some (_return_no_majority_event r))
  else Ok None.

(** *** TransactionSignatureBaseRound *)

Definition TransactionSignatureBaseRound_end_block `{Imports} (r : Round)
  : Res (option (PeriodState * Event)) :=
  if collection_threshold_reached r then
    let state :=
      update (period_state r)
        [ ("participant_to_signature", MappingProxyType (collection r)) ] in
    Ok (Some (state, DONE))
  else if negb (is_majority_possible (collection r)
                  (nb_participants (period_state r))) then
    Ok (Some (_return_no_majority_event r))
  else Ok None.

(** *** TransactionSendBaseRound *)

Definition TransactionSendBaseRound_end_block `{Imports} (r : Round)
  : Res (option (PeriodState * Event)) :=
  if has_keeper_sent_payload r then
    let state :=
      update (period_state r) [ ("final_tx_hash", keeper_payload r) ] in
    Ok (Some (state, DONE))
  else Ok None.

(** *** TransactionValidationBaseRound *)

(** The class attribute [exit_event]; no subclass rebinds it. *)
Definition exit_event (c : RoundCls) : Event := EXIT.

Definition TransactionValidationBaseRound_end_block `{Imports} (r : Round)
  : Res (option (PeriodState * Event)) :=
  if positive_vote_threshold_reached r then
    let state :=
      update (period_state r)
        [ ("participant_to_votes", MappingProxyType (collection r)) ] in
    Ok (Some (state, DONE))
  else if negative_vote_threshold_reached r then
    let state := update (period_state r) [] in
    Ok (Some (state, exit_event (round_cls r)))
  else if negb (is_majority_possible (collection r)
                  (nb_participants (period_state r))) then
    Ok (Some (_return_no_majority_event r))
  else Ok None.

(** *** StrategyEvaluationRound *)

Definition StrategyEvaluationRound_end_block `{Imports} (r : Round)
  : Res (option (PeriodState * Event)) :=
  if threshold_reached r then
    let state :=
      update (period_state r)
        [ ("participant_to_strategy", MappingProxyType (collection r));
          ("most_voted_strategy", most_voted_payload r) ] in
    strategy ← most_voted_strategy state;
    action ← getitem strategy "action";
    let event := if eq_StrategyType_GO action then DONE else RESET_TIMEOUT in
    Ok (Some (state, event))
  else if negb (is_majority_possible (collection r)
                  (nb_participants (period_state r))) then
    Ok (Some (_return_no_majority_event r))
  else Ok None.

(** *** Method resolution *)

(** The class of this module whose [end_block] a round class runs; [None]
    for the classes that take it from another module (the reset and
    randomness rounds) or do not define it (the select-keeper rounds). *)
Definition end_block_owner (c : RoundCls) : option RoundCls :=
  match c with
  | TransactionHashBaseRound
  | TransactionSignatureBaseRound
  | TransactionSendBaseRound
  | TransactionValidationBaseRound
  | StrategyEvaluationRound => Some c
  | _ => base_cls c
  end.

Definition end_block `{Imports} (r : Round)
  : option (Res (option (PeriodState * Event))) :=
  match end_block_owner (round_cls r) with
  | Some TransactionHashBaseRound =>
      Some (TransactionHashBaseRound_end_block r)
  | Some TransactionSignatureBaseRound =>
      Some (TransactionSignatureBaseRound_end_block r)
  | Some TransactionSendBaseRound =>
      Some (TransactionSendBaseRound_end_block r)
  | Some TransactionValidationBaseRound =>
      Some (TransactionValidationBaseRound_end_block r)
  | Some StrategyEvaluationRound =>
      Some (StrategyEvaluationRound_end_block r)
  | _ => None
  end.

(** [r.end_block()] returns the pair [(s, e)]. *)
Definition end_block_returns `{Imports} (r : Round)
    (s : PeriodState) (e : Event) : Prop :=
  end_block r = Some (Ok (Some (s, e))).

(** ** Application driver *)

(** Modelled from the spec: [AbciApp.process_event] belongs to
    [abstract_round_abci.base].  It looks up
    [table[type(current_round)][event]], fails with [UnknownTransitionError]
    if there is no entry, and otherwise makes a fresh round of the target
    class with the new state the current round. *)
Definition process_event (current_round : Round) (event : Event)
    (new_state : PeriodState) : Res Round :=
  match LiquidityProvisionAbciApp.next_round_cls
          (round_cls current_round) event with
  | Some cls =>
      Ok {| round_cls := cls; _state := new_state;
            collection := []; keeper_payload := PyNone |}
  | None => Raise UnknownTransitionError
  end.

(** Round classes the driver can be in, starting from the initial one. *)
Inductive reachable : RoundCls -> Prop :=
| reachable_initial :
    reachable LiquidityProvisionAbciApp.initial_round_cls
| reachable_next c e c' :
    reachable c ->
    LiquidityProvisionAbciApp.next_round_cls c e = Some c' ->
    reachable c'.

(** ** A concrete reading of the imports

    The theorems below hold for every instance of [Imports].  To run the
    rounds on concrete inputs, the generic round classes are given the
    behaviour the specification describes for the threshold collector. *)

Module Concrete.

Fixpoint PyVal_eqb (a b : PyVal) {struct a} : bool :=
  match a, b with
  | PyNone, PyNone => true
  | PyBool x, PyBool y => Bool.eqb x y
  | PyInt x, PyInt y => Z.eqb x y
  | PyStr x, PyStr y => String.eqb x y
  | PyEnum c m, PyEnum c' m' => String.eqb c c' && String.eqb m m'
  | PyList xs, PyList ys =>
      (fix go (xs ys : list PyVal) {struct xs} : bool :=
         match xs, ys with
         | [], [] => true
         | x :: xs', y :: ys' => PyVal_eqb x y && go xs' ys'
         | _, _ => false
         end) xs ys
  | PyDict xs, PyDict ys =>
      (fix go (xs ys : list (string * PyVal)) {struct xs} : bool :=
         match xs, ys with
         | [], [] => true
         | (k, x) :: xs', (k', y) :: ys' =>
             String.eqb k k' && PyVal_eqb x y && go xs' ys'
         | _, _ => false
         end) xs ys
  | PyPayload s v, PyPayload s' v' => String.eqb s s' && PyVal_eqb v v'
  | _, _ => false
  end.

(** The value a payload carries under the round's [payload_attribute]. *)
Definition payload_value (p : PyVal) : PyVal :=
  match p with
  | PyPayload _ v => v
  | _ => p
  end.

Fixpoint count_value (v : PyVal) (c : list (string * PyVal)) : nat :=
  match c with
  | [] => 0
  | (_, p) :: rest =>
      (if PyVal_eqb (payload_value p) v then 1 else 0) + count_value v rest
  end.

(** Modelled from the spec: [most_common_value()] of the threshold
    collector, the value with the highest submission count, ties broken by
    first-submitted-wins.  [best] is the best value seen so far and [n] its
    count. *)
Fixpoint most_common_from (c rest : list (string * PyVal))
    (best : PyVal) (n : nat) : PyVal :=
  match rest with
  | [] => best
  | (_, p) :: rest' =>
      let v := payload_value p in
      let m := count_value v c in
      if Nat.ltb n m then most_common_from c rest' v m
      else most_common_from c rest' best n
  end.

Definition most_common_value (c : list (string * PyVal)) : PyVal :=
  most_common_from c c PyNone 0.

(** Modelled from the spec: the configured fraction of the threshold
    collector, strictly more than two-thirds of the participants, in
    integer arithmetic. *)
Definition threshold_met (count n : nat) : bool :=
  Nat.ltb (2 * n) (3 * count).

(** Modelled from the spec: the expected participant count of a round, read
    here from the [participants] attribute of the period state. *)
Definition nb_participants (s : PeriodState) : nat :=
  match db s !! "participants" with
  | Some (PyList xs) => length xs
  | _ => 0
  end.

(** Modelled from the spec: [threshold_reached] of the threshold collector,
    the most-submitted value's count meets the threshold. *)
Definition threshold_reached (r : Round) : bool :=
  threshold_met
    (count_value (most_common_value (collection r)) (collection r))
    (nb_participants (period_state r)).

(** Modelled from the spec: [collection_threshold_reached], the number of
    distinct submitters meets the threshold. *)
Definition collection_threshold_reached (r : Round) : bool :=
  threshold_met (length (collection r)) (nb_participants (period_state r)).

(** Modelled from the spec: [majority_possible], false iff the remaining
    unsubmitted slots can no longer let any value reach the threshold. *)
Definition is_majority_possible (c : list (string * PyVal)) (n : nat) : bool :=
  threshold_met (count_value (most_common_value c) c + (n - length c)) n.

(** Modelled from the spec: the keeper's submission is present. *)
Definition has_keeper_sent_payload (r : Round) : bool :=
  match keeper_payload r with
  | PyNone => false
  | _ => true
  end.

(** Modelled from the spec: positive votes clear the threshold. *)
Definition positive_vote_threshold_reached (r : Round) : bool :=
  threshold_met (count_value (PyBool true) (collection r))
    (nb_participants (period_state r)).

(** Modelled from the spec: negative votes clear the threshold. *)
Definition negative_vote_threshold_reached (r : Round) : bool :=
  threshold_met (count_value (PyBool false) (collection r))
    (nb_participants (period_state r)).

Definition dquote : string := String "034"%char EmptyString.

(** The text [{"tx_hash": "0xabc", "tx_data": "0x00"}]. *)
Definition tx_document : string :=
  "{" ++ dquote ++ "tx_hash" ++ dquote ++ ": "
      ++ dquote ++ "0xabc" ++ dquote ++ ", "
      ++ dquote ++ "tx_data" ++ dquote ++ ": "
      ++ dquote ++ "0x00" ++ dquote ++ "}".

(** A decoder that knows the documents used in the examples and rejects
    every other text. *)
Definition json_loads (v : PyVal) : Res PyVal :=
  match v with
  | PyStr s =>
      if String.eqb s tx_document then
        Ok (PyDict [ ("tx_hash", PyStr "0xabc"); ("tx_data", PyStr "0x00") ])
      else if String.eqb s "{}" then Ok (PyDict [])
      else Raise JSONDecodeError
  | _ => Raise TypeError
  end.

Definition StrategyType_GO : PyVal := PyEnum "StrategyType" "GO".
Definition StrategyType_WAIT : PyVal := PyEnum "StrategyType" "WAIT".

Definition eq_StrategyType_GO (v : PyVal) : bool := PyVal_eqb v StrategyType_GO.

#[export] Instance imports : Imports :=
  Build_Imports
    nb_participants
    threshold_reached
    (fun r => most_common_value (collection r))
    collection_threshold_reached
    is_majority_possible
    has_keeper_sent_payload
    positive_vote_threshold_reached
    negative_vote_threshold_reached
    json_loads
    eq_StrategyType_GO.

(** A period state with four participants and nothing else. *)
Definition four_agents : PeriodState :=
  {| db := {[ "participants" :=
                PyList [ PyStr "agent_0"; PyStr "agent_1";
                         PyStr "agent_2"; PyStr "agent_3" ] ]} |}.

Definition submissions (senders : list string) (v : PyVal)
  : list (string * PyVal) :=
  map (fun a => (a, PyPayload a v)) senders.

Definition mk_round (c : RoundCls) (coll : list (string * PyVal)) : Round :=
  {| round_cls := c; _state := four_agents;
     collection := coll; keeper_payload := PyNone |}.

(** Rounds used as concrete inputs. *)

(** Three agents submit the same transaction document, one another text. *)
Definition hash_round_agreed : Round :=
  mk_round EnterPoolTransactionHashRound
    (submissions ["agent_0"; "agent_1"; "agent_2"] (PyStr tx_document)
     ++ submissions ["agent_3"] (PyStr "0xdef")).

(** One agent has submitted so far. *)
Definition hash_round_waiting : Round :=
  mk_round EnterPoolTransactionHashRound
    (submissions ["agent_0"] (PyStr tx_document)).

(** Three agents agree on a text that is not a JSON document. *)
Definition hash_round_undecodable : Round :=
  mk_round EnterPoolTransactionHashRound
    (submissions ["agent_0"; "agent_1"; "agent_2"] (PyStr "0xabc")).

Definition validation_round (votes : list (string * PyVal)) : Round :=
  mk_round EnterPoolTransactionValidationRound votes.

Definition votes_positive : list (string * PyVal) :=
  submissions ["agent_0"; "agent_1"; "agent_2"] (PyBool true).

Definition votes_negative : list (string * PyVal) :=
  submissions ["agent_0"; "agent_1"; "agent_2"] (PyBool false).

Definition votes_split : list (string * PyVal) :=
  submissions ["agent_0"; "agent_1"] (PyBool true)
  ++ submissions ["agent_2"; "agent_3"] (PyBool false).

Definition votes_one : list (string * PyVal) :=
  submissions ["agent_0"] (PyBool true).

Definition send_round (payload : PyVal) : Round :=
  {| round_cls := EnterPoolTransactionSendRound; _state := four_agents;
     collection := []; keeper_payload := payload |}.

(** Three agents agree on a strategy whose action is [StrategyType.WAIT]. *)
Definition strategy_round_wait : Round :=
  mk_round StrategyEvaluationRound
    (submissions ["agent_0"; "agent_1"; "agent_2"]
       (PyDict [ ("action", StrategyType_WAIT) ])).

End Concrete.

(** ** Service registry contract *)

Module ServiceRegistryContract.

(** The assignments to [DEPLOYED_BYTECODE_MD5_HASH] at module level, in the
    order in which the interpreter runs them. *)
Definition module_assignments : list (string * string) :=
  [ ("DEPLOYED_BYTECODE_MD5_HASH",
     "288a5ecfe0b685d93f174ec24f743458679a4948d6517d77957fd67b72e5982eb85f543329059eabada38428eef9d548e407b1e0d60dd83af60099ea76bf5a76");
    ("DEPLOYED_BYTECODE_MD5_HASH",
     "2efb3d8756e0c16b79f15785774d02b7a7f1103c322fa000137bfda2fe4ed1b90352bd8e2f0c0be47357476332c88c8e477df8037ea35347e8275feccf58c4d9");
    ("DEPLOYED_BYTECODE_MD5_HASH",
     "fa67f4a5dff3f392b506c42816bc90086422a22a64103a11aa59640f036b8f8c70facdea13f8af9f893c25a0c838a9d0b03fed4a6c77b1d36f0beefe92b9379a");
    ("DEPLOYED_BYTECODE_MD5_HASH",
     "75d2a79df580ba1353211f93c479a9d6b78cc8f14e724290329e274fdcab4dc8cc04adbd8efbbce00a01af2dd6873f7e66a8c338a3d4f87a31ab0e283eef89de") ].

(** Running [name = value] in a namespace. *)
Definition assign (globals : gmap string string) (a : string * string)
  : gmap string string :=
  <[a.1 := a.2]> globals.

(** The module namespace after the first [n] assignments. *)
Definition globals_after (n : nat) : gmap string string :=
  foldl assign ∅ (take n module_assignments).

(** The module namespace once the module is loaded. *)
Definition module_globals : gmap string string :=
  foldl assign ∅ module_assignments.

(** Reading a global name inside a function body. *)
Definition load_global (name : string) : Res string :=
  match module_globals !! name with
  | Some v => Ok v
  | None => Raise (NameError name)
  end.


(** What the method takes from outside the module: the ledger connection
    with [api.eth.get_code], the [hex] method of the bytes it returns, and
    [hashlib.sha512(...).hexdigest()]. *)
Class Ledger : Type := {
  LedgerApi : Type;
  get_code : LedgerApi -> string -> list ascii;
  hex : list ascii -> string;
  sha512_hexdigest : list ascii -> string
}.

(** [s.encode("utf-8")]: strings are kept as their UTF-8 bytes. *)
Definition encode_utf8 (s : string) : list ascii := list_ascii_of_string s.


Definition verify_contract `{Ledger} (ledger_api : LedgerApi)
    (contract_address : string) : Res PyVal :=
  let deployed_bytecode := hex (get_code ledger_api contract_address) in
  let sha512_hash := sha512_hexdigest (encode_utf8 deployed_bytecode) in
  expected ← load_global "DEPLOYED_BYTECODE_MD5_HASH";
  let verified := String.eqb expected sha512_hash in
  Ok (PyDict [ ("verified", PyBool verified);
               ("sha512_hash", PyStr sha512_hash) ]).

(** A ledger whose contracts all hash to a given digest, to run the method
    on a concrete input. *)
Definition fixed_digest_ledger (digest : string) : Ledger :=
  {| LedgerApi := unit;
     get_code := fun _ _ => [];
     hex := fun _ => "0x";
     sha512_hexdigest := fun _ => digest |}.

(** *** The query methods *)

(** What [exists] and [get_service_info] take from outside the module:
    [get_instance], inherited from [Contract], and
    [ledger_api.contract_method_call], called with the contract instance, a
    method name and [serviceId]. *)
Class ContractCalls `{Ledger} : Type := {
  ContractInstance : Type;
  get_instance : LedgerApi -> string -> ContractInstance;
  contract_method_call :
    LedgerApi -> ContractInstance -> string -> Z -> PyVal
}.

(** Exceptions of an integer subscript [obj[i]]. *)
Inductive SubscriptExn : Type :=
| IndexError
| IntKeyError (key : nat)
| NotSubscriptable.

Inductive Outcome (A : Type) : Type :=
| Returns (a : A)
| Raises (e : SubscriptExn).
Arguments Returns {A} a.
Arguments Raises {A} e.

#[global] Instance Outcome_ret : MRet Outcome := fun _ a => Returns a.
#[global] Instance Outcome_bind : MBind Outcome := fun _ _ k m =>
  match m with
  | Returns a => k a
  | Raises e => Raises e
  end.

(** A byte of the form [10xxxxxx] continues a character. *)
Definition is_continuation (a : ascii) : bool :=
  Nat.leb 128 (nat_of_ascii a) && Nat.ltb (nat_of_ascii a) 192.

(** The characters of a string kept as UTF-8 bytes: the bytes that continue
    the character in front of the rest, and the characters of the rest. *)
Fixpoint split_characters (s : string) : string * list string :=
  match s with
  | EmptyString => (EmptyString, [])
  | String a rest =>
      let '(continuation, characters) := split_characters rest in
      if is_continuation a then (String a continuation, characters)
      else (EmptyString, String a continuation :: characters)
  end.

Definition characters (s : string) : list string := (split_characters s).2.

(** [obj[i]] for an integer [i >= 0]: sequences are indexed, a mapping with
    string keys has no integer key, and nothing else can be subscripted. *)
Definition subscript (obj : PyVal) (i : nat) : Outcome PyVal :=
  match obj with
  | PyList xs =>
      match xs !! i with
      | Some x => Returns x
      | None => Raises IndexError
      end
  | PyStr s =>
      match characters s !! i with
      | Some c => Returns (PyStr c)
      | None => Raises IndexError
      end
  | PyDict _ => Raises (IntKeyError i)
  | _ => Raises NotSubscriptable
  end.

(** [exists]; the name is a keyword here.  [cast] returns its argument. *)
Definition exists_ `{ContractCalls} (ledger_api : LedgerApi)
    (contract_address : string) (service_id : Z) : PyVal :=
  let contract_instance := get_instance ledger_api contract_address in
  let exists' := contract_method_call ledger_api contract_instance
                   "exists" service_id in
  exists'.

Definition get_service_info `{ContractCalls} (ledger_api : LedgerApi)
    (contract_address : string) (service_id : Z) : Outcome PyVal :=
  let contract_instance := get_instance ledger_api contract_address in
  let service_info := contract_method_call ledger_api contract_instance
                        "getServiceInfo" service_id in
  owner ← subscript service_info 0;
  name ← subscript service_info 1;
  description ← subscript service_info 2;
  config_hash ← subscript service_info 3;
  threshold ← subscript service_info 4;
  num_agent_ids ← subscript service_info 5;
  agent_ids ← subscript service_info 6;
  agent_params ← subscript service_info 7;
  num_agent_instances ← subscript service_info 8;
  agent_instances ← subscript service_info 9;
  multisig ← subscript service_info 10;
  Returns (PyDict [ ("owner", owner);
                    ("name", name);
                    ("description", description);
                    ("config_hash", config_hash);
                    ("threshold", threshold);
                    ("num_agent_ids", num_agent_ids);
                    ("agent_ids", agent_ids);
                    ("agent_params", agent_params);
                    ("num_agent_instances", num_agent_instances);
                    ("agent_instances", agent_instances);
                    ("multisig", multisig) ]).

(** The keywords of the dictionary [get_service_info] builds, in order. *)
Definition service_info_keys : list string :=
  [ "owner"; "name"; "description"; "config_hash"; "threshold";
    "num_agent_ids"; "agent_ids"; "agent_params"; "num_agent_instances";
    "agent_instances"; "multisig" ].

(** A connection whose every call answers with a given value, to run the
    query methods on a concrete input. *)
Definition fixed_answer_calls (digest : string) (answer : PyVal)
  : @ContractCalls (fixed_digest_ledger digest) :=
  @Build_ContractCalls (fixed_digest_ledger digest)
    unit (fun _ _ => tt) (fun _ _ _ _ => answer).

End ServiceRegistryContract.


(** ** Further definitions for the round catalogue and the table *)

(** The class attribute [round_id] of the classes that set it in this
    module; the two reset rounds take theirs from the module they are
    imported from. *)
Definition round_id (c : RoundCls) : option string :=
  match c with
  | ResetRound | ResetAndPauseRound => None
  | TransactionHashBaseRound => Some "tx_hash"
  | TransactionSignatureBaseRound => Some "abstract_signature"
  | TransactionSendBaseRound => Some "finalization"
  | TransactionValidationBaseRound => Some "transaction_valid_round"
  | StrategyEvaluationRound => Some "strategy_evaluation"
  | EnterPoolTransactionHashRound => Some "enter_pool_tx_hash"
  | EnterPoolTransactionSignatureRound => Some "enter_pool_tx_signature"
  | EnterPoolTransactionSendRound => Some "enter_pool_tx_send"
  | EnterPoolTransactionValidationRound => Some "enter_pool_tx_validation"
  | EnterPoolRandomnessRound => Some "enter_pool_randomness"
  | EnterPoolSelectKeeperRound => Some "enter_pool_select_keeper"
  | ExitPoolTransactionHashRound => Some "exit_pool_tx_hash"
  | ExitPoolTransactionSignatureRound => Some "exit_pool_tx_signature"
  | ExitPoolTransactionSendRound => Some "exit_pool_tx_send"
  | ExitPoolTransactionValidationRound => Some "exit_pool_tx_validation"
  | ExitPoolRandomnessRound => Some "exit_pool_randomness"
  | ExitPoolSelectKeeperRound => Some "exit_pool_select_keeper"
  | SwapBackTransactionHashRound => Some "swap_back_tx_hash"
  | SwapBackTransactionSignatureRound => Some "swap_back_tx_signature"
  | SwapBackTransactionSendRound => Some "swap_back_tx_send"
  | SwapBackTransactionValidationRound => Some "swap_back_tx_validation"
  | SwapBackRandomnessRound => Some "swap_back_randomness"
  | SwapBackSelectKeeperRound => Some "swap_back_select_keeper"
  end.

(** The keywords passed to [update] in the [end_block] of a class. *)
Definition written_attributes (owner : RoundCls) : list string :=
  match owner with
  | TransactionHashBaseRound =>
      [ "participant_to_tx_hash"; "most_voted_tx_hash"; "most_voted_tx_data" ]
  | TransactionSignatureBaseRound => [ "participant_to_signature" ]
  | TransactionSendBaseRound => [ "final_tx_hash" ]
  | TransactionValidationBaseRound => [ "participant_to_votes" ]
  | StrategyEvaluationRound =>
      [ "participant_to_strategy"; "most_voted_strategy" ]
  | _ => []
  end.

(** [path allowed c c']: the driver can get from class [c] to class [c']
    through entries of the table whose event is allowed. *)
Inductive path (allowed : Event -> Prop) : RoundCls -> RoundCls -> Prop :=
| path_here c : path allowed c c
| path_next c c' e c'' :
    path allowed c c' ->
    allowed e ->
    LiquidityProvisionAbciApp.next_round_cls c' e = Some c'' ->
    path allowed c c''.

(** The classes of the enter-pool transaction and of the reset loop. *)
Definition enter_pool_loop : list RoundCls :=
  [ ResetRound; StrategyEvaluationRound; EnterPoolTransactionHashRound;
    EnterPoolTransactionSignatureRound; EnterPoolTransactionSendRound;
    EnterPoolTransactionValidationRound; ResetAndPauseRound ].

(** One enter-pool transaction on concrete inputs: each round starts from
    the state the round before returned. *)
Module ConcreteCycle.
Import Concrete.

Definition three_agents : list string := ["agent_0"; "agent_1"; "agent_2"].

Definition hash_round : Round := hash_round_agreed.

Definition state_after_hash : PeriodState :=
  update four_agents
    [ ("participant_to_tx_hash", MappingProxyType (collection hash_round));
      ("most_voted_tx_hash", PyStr "0xabc");
      ("most_voted_tx_data", PyStr "0x00") ].

Definition signature_round : Round :=
  {| round_cls := EnterPoolTransactionSignatureRound;
     _state := state_after_hash;
     collection :=
       [ ("agent_0", PyPayload "agent_0" (PyStr "0x5160"));
         ("agent_1", PyPayload "agent_1" (PyStr "0x5161"));
         ("agent_2", PyPayload "agent_2" (PyStr "0x5162")) ];
     keeper_payload := PyNone |}.

Definition state_after_signature : PeriodState :=
  update state_after_hash
    [ ("participant_to_signature",
       MappingProxyType (collection signature_round)) ].

Definition send_round : Round :=
  {| round_cls := EnterPoolTransactionSendRound;
     _state := state_after_signature;
     collection := [ ("agent_1", PyPayload "agent_1" (PyStr "0xf1")) ];
     keeper_payload := PyStr "0xf1" |}.

Definition state_after_send : PeriodState :=
  update state_after_signature [ ("final_tx_hash", PyStr "0xf1") ].

Definition validation_round : Round :=
  {| round_cls := EnterPoolTransactionValidationRound;
     _state := state_after_send;
     collection := submissions three_agents (PyBool true);
     keeper_payload := PyNone |}.

Definition state_after_validation : PeriodState :=
  update state_after_send
    [ ("participant_to_votes",
       MappingProxyType (collection validation_round)) ].

(** Three agents agree on a strategy whose action is [StrategyType.GO]. *)
Definition strategy_round_go : Round :=
  mk_round StrategyEvaluationRound
    (submissions three_agents (PyDict [ ("action", StrategyType_GO) ])).

(** Three agents agree on a strategy without an action. *)
Definition strategy_round_no_action : Round :=
  mk_round StrategyEvaluationRound
    (submissions three_agents (PyDict [ ("pair", PyStr "0xab") ])).

(** Three agents agree on a strategy that is a plain string. *)
Definition strategy_round_string : Round :=
  mk_round StrategyEvaluationRound
    (submissions three_agents (PyStr "go")).

(** One signature out of four. *)
Definition signature_round_few : Round :=
  mk_round EnterPoolTransactionSignatureRound
    [ ("agent_0", PyPayload "agent_0" (PyStr "0x5160")) ].

(** A period state with six participants. *)
Definition six_agents : PeriodState :=
  {| db := {[ "participants" :=
                PyList [ PyStr "agent_0"; PyStr "agent_1"; PyStr "agent_2";
                         PyStr "agent_3"; PyStr "agent_4"; PyStr "agent_5" ]
           ]} |}.

(** Three different signatures out of six. *)
Definition signature_round_split : Round :=
  {| round_cls := EnterPoolTransactionSignatureRound;
     _state := six_agents;
     collection :=
       [ ("agent_0", PyPayload "agent_0" (PyStr "0x5160"));
         ("agent_1", PyPayload "agent_1" (PyStr "0x5161"));
         ("agent_2", PyPayload "agent_2" (PyStr "0x5162")) ];
     keeper_payload := PyNone |}.

(** Three agents agree on the document [{}]. *)
Definition hash_round_empty_object : Round :=
  mk_round EnterPoolTransactionHashRound
    (submissions three_agents (PyStr "{}")).

(** One agent has submitted a strategy so far. *)
Definition strategy_round_waiting : Round :=
  mk_round StrategyEvaluationRound
    (submissions ["agent_0"] (PyDict [ ("action", StrategyType_GO) ])).

End ConcreteCycle.

(** * Properties *)

(** ** Dictionary displays *)

Lemma dict_display_snoc `{Countable K} {V : Type}
    (items : list (K * V)) (k : K) (v : V) :
  dict_display (items ++ [(k, v)]) = <[k := v]> (dict_display items).
Proof. unfold dict_display. rewrite foldl_app. reflexivity. Qed.

(** Looking a key up in a display gives the value of the last item written
    with that key. *)
Lemma dict_display_lookup `{Countable K} {V : Type}
    (items : list (K * V)) (k : K) :
  dict_display items !! k
  = snd <$> last (filter (fun kv => kv.1 = k) items).
Proof.
  induction items as [|[k' v] items IH] using rev_ind.
  - reflexivity.
  - rewrite dict_display_snoc, filter_app, lookup_insert.
    destruct (decide (k' = k)) as [->|Hne].
    + rewrite filter_cons_True by reflexivity.
      rewrite filter_nil, last_snoc. reflexivity.
    + rewrite filter_cons_False by (simpl; congruence).
      rewrite filter_nil, app_nil_r. exact IH.
Qed.

(** A key written once or more is in the dictionary. *)
Lemma dict_display_is_Some `{Countable K} {V : Type}
    (items : list (K * V)) (k : K) :
  is_Some (dict_display items !! k) <-> 0 < key_occurrences k items.
Proof.
  rewrite dict_display_lookup. unfold key_occurrences.
  destruct (filter _ items) as [|kv l] using rev_ind.
  - simpl. split; [intros [? ?]; discriminate | lia].
  - rewrite last_snoc, length_app. simpl. split; [lia | eauto].
Qed.

(** ** The transition table *)

Section TransitionTable.
Import LiquidityProvisionAbciApp.

(** The table can be read off the display: the entry for a class and an
    event is the last item written for them. *)
Lemma next_round_cls_display (c : RoundCls) (e : Event) :
  next_round_cls c e
  = snd <$> last (filter (fun kv => kv.1 = e) (display_items c)).
Proof.
  rewrite <- dict_display_lookup.
  destruct c; destruct e; vm_compute; reflexivity.
Qed.

Lemma table_keys_NoDup : NoDup table_keys.
Proof. compute_done. Qed.

Lemma next_round_cls_in_table (c c' : RoundCls) (e : Event) :
  next_round_cls c e = Some c' -> c' ∈ table_keys.
Proof.
  intros Heq. destruct c; destruct e; vm_compute in Heq;
    try discriminate; injection Heq as <-; compute_done.
Qed.

(** Walks back along [predecessor] to the initial class. *)
Ltac reach :=
  lazymatch goal with
  | |- reachable ?c =>
      let p := eval vm_compute in (predecessor c) in
      lazymatch p with
      | Some (?q, ?e) =>
          apply (reachable_next q e); [reach | vm_compute; reflexivity]
      | None => apply reachable_initial
      end
  end.

(** The reachable round classes are exactly the keys of the table. *)
Lemma reachable_iff_table_key (c : RoundCls) :
  reachable c <-> c ∈ table_keys.
Proof.
  split.
  - intros Hr. induction Hr as [|c e c' _ _ Hn].
    + compute_done.
    + exact (next_round_cls_in_table c c' e Hn).
  - intros Hin. destruct c; try reach; exfalso; revert Hin; compute_done.
Qed.

(** Every class of the table other than [ResetRound] has an entry for
    [NO_MAJORITY] and an entry for a timeout event: [RESET_TIMEOUT] for
    [ResetAndPauseRound], [ROUND_TIMEOUT] for the others. *)
Lemma fallback_entries_except_ResetRound (c : RoundCls) :
  reachable c -> c <> ResetRound ->
  is_Some (next_round_cls c NO_MAJORITY) /\
  is_Some (next_round_cls c
             (if decide (c = ResetAndPauseRound)
              then RESET_TIMEOUT else ROUND_TIMEOUT)).
Proof.
  intros Hr Hne. apply reachable_iff_table_key in Hr.
  destruct c; try congruence;
    try (exfalso; revert Hr; compute_done);
    split; vm_compute; eauto.
Qed.

(** C2: the initial round [ResetRound], which is reachable, has no entry for
    [NO_MAJORITY] and no entry for either timeout event; its only entry is
    the one for [DONE]. *)
Theorem ResetRound_has_no_fallback_entries :
  reachable ResetRound /\
  next_round_cls ResetRound NO_MAJORITY = None /\
  next_round_cls ResetRound ROUND_TIMEOUT = None /\
  next_round_cls ResetRound RESET_TIMEOUT = None /\
  display_items ResetRound = [(DONE, StrategyEvaluationRound)].
Proof.
  split; [exact reachable_initial|].
  rewrite !next_round_cls_display.
  repeat split; reflexivity.
Qed.

(** C3: the displays of the three validation rounds write the key
    [ROUND_TIMEOUT] twice, first with [ResetRound] and then with the
    randomness round of the same cycle, and the entry in effect is the
    randomness round. *)
Theorem validation_ROUND_TIMEOUT_last_write_wins :
  (filter (fun kv => kv.1 = ROUND_TIMEOUT)
     (display_items EnterPoolTransactionValidationRound)
   = [ (ROUND_TIMEOUT, ResetRound);
       (ROUND_TIMEOUT, EnterPoolRandomnessRound) ] /\
   filter (fun kv => kv.1 = ROUND_TIMEOUT)
     (display_items ExitPoolTransactionValidationRound)
   = [ (ROUND_TIMEOUT, ResetRound);
       (ROUND_TIMEOUT, ExitPoolRandomnessRound) ] /\
   filter (fun kv => kv.1 = ROUND_TIMEOUT)
     (display_items SwapBackTransactionValidationRound)
   = [ (ROUND_TIMEOUT, ResetRound);
       (ROUND_TIMEOUT, SwapBackRandomnessRound) ]) /\
  (key_occurrences ROUND_TIMEOUT
     (display_items EnterPoolTransactionValidationRound) = 2 /\
   key_occurrences ROUND_TIMEOUT
     (display_items ExitPoolTransactionValidationRound) = 2 /\
   key_occurrences ROUND_TIMEOUT
     (display_items SwapBackTransactionValidationRound) = 2) /\
  (next_round_cls EnterPoolTransactionValidationRound ROUND_TIMEOUT
   = Some EnterPoolRandomnessRound /\
   next_round_cls ExitPoolTransactionValidationRound ROUND_TIMEOUT
   = Some ExitPoolRandomnessRound /\
   next_round_cls SwapBackTransactionValidationRound ROUND_TIMEOUT
   = Some SwapBackRandomnessRound).
Proof.
  assert (He : filter (fun kv => kv.1 = ROUND_TIMEOUT)
                 (display_items EnterPoolTransactionValidationRound)
               = [ (ROUND_TIMEOUT, ResetRound);
                   (ROUND_TIMEOUT, EnterPoolRandomnessRound) ])
    by reflexivity.
  assert (Hx : filter (fun kv => kv.1 = ROUND_TIMEOUT)
                 (display_items ExitPoolTransactionValidationRound)
               = [ (ROUND_TIMEOUT, ResetRound);
                   (ROUND_TIMEOUT, ExitPoolRandomnessRound) ])
    by reflexivity.
  assert (Hs : filter (fun kv => kv.1 = ROUND_TIMEOUT)
                 (display_items SwapBackTransactionValidationRound)
               = [ (ROUND_TIMEOUT, ResetRound);
                   (ROUND_TIMEOUT, SwapBackRandomnessRound) ])
    by reflexivity.
  split; [auto|]. split.
  - unfold key_occurrences. rewrite He, Hx, Hs. auto.
  - rewrite !next_round_cls_display, He, Hx, Hs. auto.
Qed.

(** No other key is written twice anywhere in the display. *)
Lemma other_keys_written_at_most_once (c : RoundCls) (e : Event) :
  1 < key_occurrences e (display_items c) ->
  e = ROUND_TIMEOUT /\
  (c = EnterPoolTransactionValidationRound \/
   c = ExitPoolTransactionValidationRound \/
   c = SwapBackTransactionValidationRound).
Proof.
  destruct c; destruct e; vm_compute; intros Hlt;
    try (exfalso; lia); auto.
Qed.

End TransitionTable.

(** ** Period state *)

Lemma update_nil (s : PeriodState) : update s [] = s.
Proof. destruct s. reflexivity. Qed.

Lemma get_strict_Some (d : gmap string PyVal) (key : string) (v : PyVal) :
  d !! key = Some v -> get_strict d key = Ok v.
Proof. unfold get_strict. intros ->. reflexivity. Qed.

Lemma get_strict_None (d : gmap string PyVal) (key : string) :
  d !! key = None -> get_strict d key = Raise (AttributeNotSet key).
Proof. unfold get_strict. intros ->. reflexivity. Qed.

(** An update leaves every attribute it does not name as it was. *)
Lemma update_lookup_other (s : PeriodState) (kwargs : list (string * PyVal))
    (key : string) :
  key ∉ map fst kwargs -> db (update s kwargs) !! key = db s !! key.
Proof.
  unfold update. simpl. revert s.
  induction kwargs as [|[k v] kwargs IH] using rev_ind; intros s Hnot.
  - reflexivity.
  - rewrite foldl_app. simpl.
    rewrite map_app, elem_of_app in Hnot. simpl in Hnot.
    rewrite lookup_insert_ne.
    + apply IH. tauto.
    + intros ->. apply Hnot. right. left.
Qed.

(** An update sets the attribute it names last. *)
Lemma update_lookup_last (s : PeriodState) (kwargs : list (string * PyVal))
    (key : string) (v : PyVal) :
  db (update s (kwargs ++ [(key, v)])) !! key = Some v.
Proof. unfold update. simpl. rewrite foldl_app. apply lookup_insert_eq. Qed.

(** ** End of block *)

Section EndBlock.
Context `{Imports}.

Lemma end_block_of_owner (r : Round) (c : RoundCls) :
  end_block_owner (round_cls r) = Some c ->
  end_block r =
    match c with
    | TransactionHashBaseRound => Some (TransactionHashBaseRound_end_block r)
    | TransactionSignatureBaseRound =>
        Some (TransactionSignatureBaseRound_end_block r)
    | TransactionSendBaseRound => Some (TransactionSendBaseRound_end_block r)
    | TransactionValidationBaseRound =>
        Some (TransactionValidationBaseRound_end_block r)
    | StrategyEvaluationRound => Some (StrategyEvaluationRound_end_block r)
    | _ => None
    end.
Proof. unfold end_block. intros ->. reflexivity. Qed.

(** The only classes that own an [end_block] here are the five that define
    it. *)
Lemma end_block_owner_cases (c o : RoundCls) :
  end_block_owner c = Some o ->
  o = TransactionHashBaseRound \/ o = TransactionSignatureBaseRound \/
  o = TransactionSendBaseRound \/ o = TransactionValidationBaseRound \/
  o = StrategyEvaluationRound.
Proof. destruct c; simpl; intros Ho; simplify_eq; tauto. Qed.

(** Splits an equation about an [end_block] body along its tests and its
    calls that may raise. *)
Ltac split_body H :=
  repeat match type of H with
    | context [if ?b then _ else _] => destruct b eqn:?
    | context [mbind _ ?m] => destruct m eqn:?; simpl in H
    end.

Lemma TransactionHashBaseRound_end_block_DONE (r : Round)
    (dict_ tx_hash tx_data : PyVal) :
  threshold_reached r = true ->
  json_loads (most_voted_payload r) = Ok dict_ ->
  getitem dict_ "tx_hash" = Ok tx_hash ->
  getitem dict_ "tx_data" = Ok tx_data ->
  TransactionHashBaseRound_end_block r
  = Ok (Some (update (period_state r)
                [ ("participant_to_tx_hash", MappingProxyType (collection r));
                  ("most_voted_tx_hash", tx_hash);
                  ("most_voted_tx_data", tx_data) ], DONE)).
Proof.
  intros Ht Hj Hh Hd. unfold TransactionHashBaseRound_end_block.
  rewrite Ht, Hj. simpl. rewrite Hh. simpl. rewrite Hd. reflexivity.
Qed.

(** When the threshold is reached and the most voted payload does not
    decode, or decodes to something without the two keys, the call raises
    and returns nothing. *)
Lemma TransactionHashBaseRound_end_block_raises (r : Round) (e : Exn) :
  threshold_reached r = true ->
  (json_loads (most_voted_payload r) = Raise e \/
   exists dict_,
     json_loads (most_voted_payload r) = Ok dict_ /\
     (getitem dict_ "tx_hash" = Raise e \/
      (exists h, getitem dict_ "tx_hash" = Ok h) /\
      getitem dict_ "tx_data" = Raise e)) ->
  TransactionHashBaseRound_end_block r = Raise e.
Proof.
  intros Ht Hcases. unfold TransactionHashBaseRound_end_block. rewrite Ht.
  destruct Hcases as [-> | [dict_ [-> [Hh | [ [h Hh] Hd] ] ] ] ];
    simpl; rewrite ?Hh; simpl; rewrite ?Hd; reflexivity.
Qed.

Lemma TransactionValidationBaseRound_end_block_EXIT (r : Round) :
  positive_vote_threshold_reached r = false ->
  negative_vote_threshold_reached r = true ->
  TransactionValidationBaseRound_end_block r
  = Ok (Some (update (period_state r) [], EXIT)).
Proof.
  intros Hp Hn. unfold TransactionValidationBaseRound_end_block.
  rewrite Hp, Hn. reflexivity.
Qed.

Lemma StrategyEvaluationRound_end_block_threshold (r : Round)
    (action : PyVal) :
  threshold_reached r = true ->
  getitem (most_voted_payload r) "action" = Ok action ->
  StrategyEvaluationRound_end_block r
  = Ok (Some (update (period_state r)
                [ ("participant_to_strategy",
                   MappingProxyType (collection r));
                  ("most_voted_strategy", most_voted_payload r) ],
              if eq_StrategyType_GO action then DONE else RESET_TIMEOUT)).
Proof.
  intros Ht Ha. unfold StrategyEvaluationRound_end_block. rewrite Ht.
  unfold most_voted_strategy.
  rewrite (get_strict_Some _ _ (most_voted_payload r)).
  - simpl. rewrite Ha. reflexivity.
  - apply (update_lookup_last _ [_]).
Qed.

(** The events each [end_block] can return. *)
Lemma end_block_event_cases (r : Round) (s : PeriodState) (e : Event) :
  end_block_returns r s e ->
  match end_block_owner (round_cls r) with
  | Some TransactionHashBaseRound
  | Some TransactionSignatureBaseRound => e = DONE \/ e = NO_MAJORITY
  | Some TransactionSendBaseRound => e = DONE
  | Some TransactionValidationBaseRound =>
      e = DONE \/ e = EXIT \/ e = NO_MAJORITY
  | Some StrategyEvaluationRound =>
      e = DONE \/ e = RESET_TIMEOUT \/ e = NO_MAJORITY
  | _ => False
  end.
Proof.
  unfold end_block_returns. intros Hret.
  destruct (end_block_owner (round_cls r)) as [o|] eqn:Ho.
  - rewrite (end_block_of_owner r o Ho) in Hret.
    destruct (end_block_owner_cases _ _ Ho) as [-> | [-> | [-> | [-> | ->] ] ] ];
      injection Hret as Hret.
    + unfold TransactionHashBaseRound_end_block in Hret.
      split_body Hret; simplify_eq; auto.
    + unfold TransactionSignatureBaseRound_end_block in Hret.
      split_body Hret; simplify_eq; auto.
    + unfold TransactionSendBaseRound_end_block in Hret.
      split_body Hret; simplify_eq; auto.
    + unfold TransactionValidationBaseRound_end_block, exit_event in Hret.
      split_body Hret; simplify_eq; auto.
    + unfold StrategyEvaluationRound_end_block in Hret.
      split_body Hret; simplify_eq; auto.
  - unfold end_block in Hret. rewrite Ho in Hret. discriminate.
Qed.

(** C4, amended: for [TransactionHashBaseRound] and its three subclasses,
    when the threshold is reached and the most voted payload decodes to a
    mapping with the keys [tx_hash] and [tx_data], [end_block] returns
    [DONE] and a
    state whose [participant_to_tx_hash] is the whole collection and whose
    [most_voted_tx_hash] and [most_voted_tx_data] are those two fields, every
    other attribute being as before; when the threshold is not reached and a
    majority is still possible it returns [None]. *)
Theorem TransactionHashBaseRound_end_block_spec (r : Round) :
  end_block_owner (round_cls r) = Some TransactionHashBaseRound ->
  (forall dict_ tx_hash tx_data,
      threshold_reached r = true ->
      json_loads (most_voted_payload r) = Ok dict_ ->
      getitem dict_ "tx_hash" = Ok tx_hash ->
      getitem dict_ "tx_data" = Ok tx_data ->
      exists state,
        end_block r = Some (Ok (Some (state, DONE))) /\
        participant_to_tx_hash state = Ok (MappingProxyType (collection r)) /\
        most_voted_tx_hash state = Ok tx_hash /\
        most_voted_tx_data state = Ok tx_data /\
        forall key,
          key ∉ ["participant_to_tx_hash"; "most_voted_tx_hash";
                 "most_voted_tx_data"] ->
          db state !! key = db (period_state r) !! key) /\
  (threshold_reached r = false ->
   is_majority_possible (collection r) (nb_participants (period_state r))
   = true ->
   end_block r = Some (Ok None)).
Proof.
  intros Ho. rewrite (end_block_of_owner r _ Ho). split.
  - intros dict_ tx_hash tx_data Ht Hj Hh Hd.
    rewrite (TransactionHashBaseRound_end_block_DONE r _ _ _ Ht Hj Hh Hd).
    eexists. split; [reflexivity|].
    unfold participant_to_tx_hash, most_voted_tx_hash, most_voted_tx_data.
    repeat split.
    + apply get_strict_Some. simpl.
      rewrite !lookup_insert_ne by discriminate. apply lookup_insert_eq.
    + apply get_strict_Some. simpl.
      rewrite lookup_insert_ne by discriminate. apply lookup_insert_eq.
    + apply get_strict_Some. simpl. apply lookup_insert_eq.
    + intros key Hkey. apply update_lookup_other. exact Hkey.
  - intros Ht Hm. unfold TransactionHashBaseRound_end_block.
    rewrite Ht, Hm. reflexivity.
Qed.

(** C5: for [TransactionValidationBaseRound] and its three subclasses,
    [end_block] returns [DONE] with [participant_to_votes] recorded as soon
    as the positive threshold is reached, whatever the negative votes;
    otherwise [EXIT] with the state's attributes unchanged when the negative
    threshold is reached; otherwise [NO_MAJORITY] with the prior state when
    no majority is possible; otherwise [None]. *)
Theorem TransactionValidationBaseRound_end_block_spec (r : Round) :
  end_block_owner (round_cls r) = Some TransactionValidationBaseRound ->
  (positive_vote_threshold_reached r = true ->
   exists state,
     end_block r = Some (Ok (Some (state, DONE))) /\
     participant_to_votes state = Ok (MappingProxyType (collection r)) /\
     forall key, key <> "participant_to_votes" ->
                 db state !! key = db (period_state r) !! key) /\
  (positive_vote_threshold_reached r = false ->
   negative_vote_threshold_reached r = true ->
   end_block r = Some (Ok (Some (period_state r, EXIT))) /\
   exit_event (round_cls r) = EXIT) /\
  (positive_vote_threshold_reached r = false ->
   negative_vote_threshold_reached r = false ->
   is_majority_possible (collection r) (nb_participants (period_state r))
   = false ->
   end_block r = Some (Ok (Some (period_state r, NO_MAJORITY)))) /\
  (positive_vote_threshold_reached r = false ->
   negative_vote_threshold_reached r = false ->
   is_majority_possible (collection r) (nb_participants (period_state r))
   = true ->
   end_block r = Some (Ok None)).
Proof.
  intros Ho. rewrite (end_block_of_owner r _ Ho).
  split; [|split; [|split]].
  - intros Hp. unfold TransactionValidationBaseRound_end_block. rewrite Hp.
    eexists. split; [reflexivity|]. split.
    + apply get_strict_Some. simpl. apply lookup_insert_eq.
    + intros key Hkey. simpl. apply lookup_insert_ne. congruence.
  - intros Hp Hn.
    rewrite (TransactionValidationBaseRound_end_block_EXIT r Hp Hn).
    rewrite update_nil. split; reflexivity.
  - intros Hp Hn Hm. unfold TransactionValidationBaseRound_end_block.
    rewrite Hp, Hn, Hm. reflexivity.
  - intros Hp Hn Hm. unfold TransactionValidationBaseRound_end_block.
    rewrite Hp, Hn, Hm. reflexivity.
Qed.

(** C6: for [TransactionSendBaseRound] and its three subclasses, [end_block]
    returns [None] while the keeper has not sent, returns [DONE] with
    [final_tx_hash] set to the keeper's payload once the keeper has sent,
    and never returns [NO_MAJORITY]. *)
Theorem TransactionSendBaseRound_end_block_spec (r : Round) :
  end_block_owner (round_cls r) = Some TransactionSendBaseRound ->
  (has_keeper_sent_payload r = false -> end_block r = Some (Ok None)) /\
  (has_keeper_sent_payload r = true ->
   exists state,
     end_block r = Some (Ok (Some (state, DONE))) /\
     final_tx_hash state = Ok (keeper_payload r) /\
     forall key, key <> "final_tx_hash" ->
                 db state !! key = db (period_state r) !! key) /\
  (forall s, end_block r <> Some (Ok (Some (s, NO_MAJORITY)))).
Proof.
  intros Ho. rewrite (end_block_of_owner r _ Ho).
  unfold TransactionSendBaseRound_end_block.
  split; [|split].
  - intros ->. reflexivity.
  - intros ->. eexists. split; [reflexivity|]. split.
    + apply get_strict_Some. simpl. apply lookup_insert_eq.
    + intros key Hkey. simpl. apply lookup_insert_ne. congruence.
  - intros s. destruct (has_keeper_sent_payload r); congruence.
Qed.

(** C7: whenever the [end_block] of a round returns [NO_MAJORITY], the state
    it returns is the period state the round already had. *)
Theorem NO_MAJORITY_returns_prior_state (r : Round) (s : PeriodState) :
  end_block_returns r s NO_MAJORITY -> s = period_state r.
Proof.
  unfold end_block_returns. intros Hret.
  destruct (end_block_owner (round_cls r)) as [o|] eqn:Ho.
  - rewrite (end_block_of_owner r o Ho) in Hret.
    destruct (end_block_owner_cases _ _ Ho) as [-> | [-> | [-> | [-> | ->] ] ] ];
      injection Hret as Hret.
    + unfold TransactionHashBaseRound_end_block in Hret.
      split_body Hret; simplify_eq; reflexivity.
    + unfold TransactionSignatureBaseRound_end_block in Hret.
      split_body Hret; simplify_eq; reflexivity.
    + unfold TransactionSendBaseRound_end_block in Hret.
      split_body Hret; simplify_eq.
    + unfold TransactionValidationBaseRound_end_block, exit_event in Hret.
      split_body Hret; simplify_eq; reflexivity.
    + unfold StrategyEvaluationRound_end_block in Hret.
      split_body Hret; simplify_eq; reflexivity.
  - unfold end_block in Hret. rewrite Ho in Hret. discriminate.
Qed.

(** The rounds that check [is_majority_possible] do return [NO_MAJORITY]
    when their success test fails and no majority is possible. *)
Lemma NO_MAJORITY_is_returned (r : Round) :
  is_majority_possible (collection r) (nb_participants (period_state r))
  = false ->
  (end_block_owner (round_cls r) = Some TransactionHashBaseRound /\
   threshold_reached r = false) \/
  (end_block_owner (round_cls r) = Some TransactionSignatureBaseRound /\
   collection_threshold_reached r = false) \/
  (end_block_owner (round_cls r) = Some TransactionValidationBaseRound /\
   positive_vote_threshold_reached r = false /\
   negative_vote_threshold_reached r = false) \/
  (end_block_owner (round_cls r) = Some StrategyEvaluationRound /\
   threshold_reached r = false) ->
  end_block_returns r (period_state r) NO_MAJORITY.
Proof.
  unfold end_block_returns.
  intros Hm [[Ho Ht] | [[Ho Ht] | [[Ho [Hp Hn] ] | [Ho Ht] ] ] ];
    rewrite (end_block_of_owner r _ Ho).
  - unfold TransactionHashBaseRound_end_block. rewrite Ht, Hm. reflexivity.
  - unfold TransactionSignatureBaseRound_end_block.
    rewrite Ht, Hm. reflexivity.
  - unfold TransactionValidationBaseRound_end_block.
    rewrite Hp, Hn, Hm. reflexivity.
  - unfold StrategyEvaluationRound_end_block. rewrite Ht, Hm. reflexivity.
Qed.

End EndBlock.

(** ** Events returned by [end_block] and the transition table *)

Section ReturnedEvents.
Context `{Imports}.
Import LiquidityProvisionAbciApp.

(** Apart from [RESET_TIMEOUT] returned by [StrategyEvaluationRound] and
    [EXIT] returned by a validation round, every event that the [end_block]
    of a round of the table returns has an entry for that round. *)
Lemma returned_event_has_entry (r : Round) (s : PeriodState) (e : Event) :
  round_cls r ∈ table_keys ->
  end_block_returns r s e ->
  (round_cls r = StrategyEvaluationRound /\ e = RESET_TIMEOUT) \/
  (end_block_owner (round_cls r) = Some TransactionValidationBaseRound /\
   e = EXIT) \/
  is_Some (next_round_cls (round_cls r) e).
Proof.
  intros Hin Hret. apply end_block_event_cases in Hret.
  destruct (round_cls r); simpl in Hret; try contradiction;
    try (exfalso; revert Hin; compute_done);
    intuition subst; auto; right; right; vm_compute; eauto.
Qed.

(** [StrategyEvaluationRound] returns [RESET_TIMEOUT] when the agreed
    strategy's action is not [StrategyType.GO], and the driver has no
    transition for it. *)
Lemma StrategyEvaluationRound_RESET_TIMEOUT_unhandled (r : Round)
    (action : PyVal) :
  round_cls r = StrategyEvaluationRound ->
  threshold_reached r = true ->
  getitem (most_voted_payload r) "action" = Ok action ->
  eq_StrategyType_GO action = false ->
  exists s,
    end_block_returns r s RESET_TIMEOUT /\
    next_round_cls (round_cls r) RESET_TIMEOUT = None /\
    process_event r RESET_TIMEOUT s = Raise UnknownTransitionError.
Proof.
  intros Hc Ht Ha Hgo. eexists. unfold end_block_returns, process_event.
  rewrite (end_block_of_owner r StrategyEvaluationRound)
    by (rewrite Hc; reflexivity).
  rewrite (StrategyEvaluationRound_end_block_threshold r action Ht Ha), Hgo.
  rewrite Hc. repeat split.
Qed.

(** A validation round of the table returns [EXIT] on a negative vote, and
    the driver has no transition for it. *)
Lemma validation_EXIT_unhandled (r : Round) :
  round_cls r ∈ table_keys ->
  end_block_owner (round_cls r) = Some TransactionValidationBaseRound ->
  positive_vote_threshold_reached r = false ->
  negative_vote_threshold_reached r = true ->
  end_block_returns r (period_state r) EXIT /\
  next_round_cls (round_cls r) EXIT = None /\
  process_event r EXIT (period_state r) = Raise UnknownTransitionError.
Proof.
  intros Hin Ho Hp Hn. unfold end_block_returns, process_event.
  rewrite (end_block_of_owner r _ Ho).
  rewrite (TransactionValidationBaseRound_end_block_EXIT r Hp Hn), update_nil.
  destruct (round_cls r); simpl in Ho; try discriminate;
    try (exfalso; revert Hin; compute_done);
    repeat split.
Qed.

End ReturnedEvents.

(** C1: two events that [end_block] returns have no entry in the table.
    With four participants, three of which agree on a strategy whose action
    is [StrategyType.WAIT], [StrategyEvaluationRound] returns
    [RESET_TIMEOUT]; with three negative votes,
    [EnterPoolTransactionValidationRound] returns [EXIT]; the table has no
    entry for either pair and [process_event] fails on both. *)
Theorem returned_events_without_transition :
  (exists s,
      @end_block_returns Concrete.imports
        Concrete.strategy_round_wait s RESET_TIMEOUT /\
      LiquidityProvisionAbciApp.next_round_cls
        StrategyEvaluationRound RESET_TIMEOUT = None /\
      process_event Concrete.strategy_round_wait RESET_TIMEOUT s
      = Raise UnknownTransitionError) /\
  (exists s,
      @end_block_returns Concrete.imports
        (Concrete.validation_round Concrete.votes_negative) s EXIT /\
      LiquidityProvisionAbciApp.next_round_cls
        EnterPoolTransactionValidationRound EXIT = None /\
      process_event
        (Concrete.validation_round Concrete.votes_negative) EXIT s
      = Raise UnknownTransitionError).
Proof.
  split.
  - apply (@StrategyEvaluationRound_RESET_TIMEOUT_unhandled Concrete.imports
             Concrete.strategy_round_wait Concrete.StrategyType_WAIT);
      vm_compute; reflexivity.
  - exists Concrete.four_agents.
    apply (@validation_EXIT_unhandled Concrete.imports
             (Concrete.validation_round Concrete.votes_negative));
      [compute_done | vm_compute; reflexivity ..].
Qed.

(** ** The rounds on concrete inputs *)

Lemma TransactionHashBaseRound_end_block_spec_witness :
  (exists state,
      @end_block Concrete.imports Concrete.hash_round_agreed
      = Some (Ok (Some (state, DONE))) /\
      participant_to_tx_hash state
      = Ok (MappingProxyType (collection Concrete.hash_round_agreed)) /\
      most_voted_tx_hash state = Ok (PyStr "0xabc") /\
      most_voted_tx_data state = Ok (PyStr "0x00")) /\
  @end_block Concrete.imports Concrete.hash_round_waiting = Some (Ok None).
Proof.
  split.
  - destruct (proj1 (@TransactionHashBaseRound_end_block_spec
                       Concrete.imports Concrete.hash_round_agreed
                       eq_refl)
                (PyDict [ ("tx_hash", PyStr "0xabc");
                          ("tx_data", PyStr "0x00") ])
                (PyStr "0xabc") (PyStr "0x00")
                eq_refl eq_refl eq_refl eq_refl)
      as [state [He [Hp [Hh [Hd _] ] ] ] ].
    exists state. repeat split; assumption.
  - exact (proj2 (@TransactionHashBaseRound_end_block_spec
                    Concrete.imports Concrete.hash_round_waiting eq_refl)
             eq_refl eq_refl).
Defined.

(** C4, as first stated, fails: three of four participants agree on the
    text [0xabc], so the threshold is reached, but the text is not a JSON
    document and [end_block] raises [JSONDecodeError] instead of returning
    [DONE] with a new state. *)
Lemma TransactionHashBaseRound_end_block_counterexample :
  @threshold_reached Concrete.imports Concrete.hash_round_undecodable = true /\
  @end_block Concrete.imports Concrete.hash_round_undecodable
  = Some (Raise JSONDecodeError) /\
  ~ (exists state,
        @end_block Concrete.imports Concrete.hash_round_undecodable
        = Some (Ok (Some (state, DONE)))).
Proof.
  assert (Hraise : @end_block Concrete.imports Concrete.hash_round_undecodable
                   = Some (Raise JSONDecodeError))
    by (vm_compute; reflexivity).
  split; [vm_compute; reflexivity|]. split; [exact Hraise|].
  intros [state Hdone]. rewrite Hraise in Hdone. discriminate.
Qed.

(** Agreement on a text that does not decode makes [end_block] raise. *)
Example hash_round_undecodable_raises :
  @end_block Concrete.imports Concrete.hash_round_undecodable
  = Some (Raise JSONDecodeError).
Proof. vm_compute. reflexivity. Qed.

Lemma TransactionValidationBaseRound_end_block_spec_witness :
  (exists state,
      @end_block Concrete.imports
        (Concrete.validation_round Concrete.votes_positive)
      = Some (Ok (Some (state, DONE))) /\
      participant_to_votes state
      = Ok (MappingProxyType Concrete.votes_positive)) /\
  @end_block Concrete.imports
    (Concrete.validation_round Concrete.votes_negative)
  = Some (Ok (Some (Concrete.four_agents, EXIT))) /\
  @end_block Concrete.imports
    (Concrete.validation_round Concrete.votes_split)
  = Some (Ok (Some (Concrete.four_agents, NO_MAJORITY))) /\
  @end_block Concrete.imports
    (Concrete.validation_round Concrete.votes_one)
  = Some (Ok None).
Proof.
  split; [|split; [|split] ].
  - destruct (proj1 (@TransactionValidationBaseRound_end_block_spec
                       Concrete.imports
                       (Concrete.validation_round Concrete.votes_positive)
                       eq_refl) eq_refl)
      as [state [He [Hv _] ] ].
    exists state. split; assumption.
  - exact (proj1 (proj1 (proj2
             (@TransactionValidationBaseRound_end_block_spec
                Concrete.imports
                (Concrete.validation_round Concrete.votes_negative)
                eq_refl)) eq_refl eq_refl)).
  - exact (proj1 (proj2 (proj2
             (@TransactionValidationBaseRound_end_block_spec
                Concrete.imports
                (Concrete.validation_round Concrete.votes_split)
                eq_refl))) eq_refl eq_refl eq_refl).
  - exact (proj2 (proj2 (proj2
             (@TransactionValidationBaseRound_end_block_spec
                Concrete.imports
                (Concrete.validation_round Concrete.votes_one)
                eq_refl))) eq_refl eq_refl eq_refl).
Defined.

Lemma TransactionSendBaseRound_end_block_spec_witness :
  @end_block Concrete.imports (Concrete.send_round PyNone)
  = Some (Ok None) /\
  (exists state,
      @end_block Concrete.imports (Concrete.send_round (PyStr "0xf1"))
      = Some (Ok (Some (state, DONE))) /\
      final_tx_hash state = Ok (PyStr "0xf1")).
Proof.
  split.
  - exact (proj1 (@TransactionSendBaseRound_end_block_spec
                    Concrete.imports (Concrete.send_round PyNone) eq_refl)
             eq_refl).
  - destruct (proj1 (proj2 (@TransactionSendBaseRound_end_block_spec
                              Concrete.imports
                              (Concrete.send_round (PyStr "0xf1")) eq_refl))
                eq_refl)
      as [state [He [Hf _] ] ].
    exists state. split; assumption.
Defined.

Lemma NO_MAJORITY_returns_prior_state_witness :
  @end_block_returns Concrete.imports
    (Concrete.validation_round Concrete.votes_split)
    Concrete.four_agents NO_MAJORITY /\
  Concrete.four_agents
  = period_state (Concrete.validation_round Concrete.votes_split).
Proof.
  assert (Hret : @end_block_returns Concrete.imports
                   (Concrete.validation_round Concrete.votes_split)
                   Concrete.four_agents NO_MAJORITY)
    by reflexivity.
  split; [exact Hret|].
  exact (@NO_MAJORITY_returns_prior_state Concrete.imports _ _ Hret).
Defined.

(** ** Property accessors of the period state *)

(** C10: each of the twelve property accessors raises when its attribute
    was never set, and returns the attribute's value when it was set,
    whatever that value is. *)
Theorem PeriodState_properties_fail_fast
    (name : string) (accessor : PeriodState -> Res PyVal) (s : PeriodState) :
  (name, accessor) ∈ PeriodState_properties ->
  (db s !! name = None -> accessor s = Raise (AttributeNotSet name)) /\
  (forall v, db s !! name = Some v -> accessor s = Ok v) /\
  (forall v, accessor (update s [(name, v)]) = Ok v).
Proof.
  unfold PeriodState_properties. intros Hin.
  repeat (apply elem_of_cons in Hin as [Heq | Hin];
          [ injection Heq as -> ->;
            split; [apply get_strict_None|];
            split; [intros v; apply get_strict_Some|];
            intros v; apply get_strict_Some; apply (update_lookup_last _ [])
          |]).
  apply elem_of_nil in Hin. contradiction.
Qed.

Lemma PeriodState_properties_fail_fast_witness :
  final_tx_hash {| db := ∅ |} = Raise (AttributeNotSet "final_tx_hash") /\
  final_tx_hash (update {| db := ∅ |} [("final_tx_hash", PyStr EmptyString)])
  = Ok (PyStr EmptyString) /\
  most_voted_strategy
    (update {| db := ∅ |} [("most_voted_strategy", PyDict [])])
  = Ok (PyDict []).
Proof.
  split; [|split].
  - apply (PeriodState_properties_fail_fast
             "final_tx_hash" final_tx_hash {| db := ∅ |}).
    + unfold PeriodState_properties.
      repeat (apply elem_of_cons; first [left; reflexivity | right]).
    + reflexivity.
  - apply (PeriodState_properties_fail_fast
             "final_tx_hash" final_tx_hash {| db := ∅ |}).
    unfold PeriodState_properties.
      repeat (apply elem_of_cons; first [left; reflexivity | right]).
  - apply (PeriodState_properties_fail_fast
             "most_voted_strategy" most_voted_strategy {| db := ∅ |}).
    unfold PeriodState_properties.
      repeat (apply elem_of_cons; first [left; reflexivity | right]).
Defined.

Lemma PeriodState_properties_length : length PeriodState_properties = 12.
Proof. reflexivity. Qed.

(** ** Service registry contract *)

Section VerifyContract.
Import ServiceRegistryContract.

(** The constant in effect when [verify_contract] runs. *)
Lemma load_DEPLOYED_BYTECODE_MD5_HASH :
  load_global "DEPLOYED_BYTECODE_MD5_HASH"
  = Ok "75d2a79df580ba1353211f93c479a9d6b78cc8f14e724290329e274fdcab4dc8cc04adbd8efbbce00a01af2dd6873f7e66a8c338a3d4f87a31ab0e283eef89de".
Proof. vm_compute. reflexivity. Qed.

(** Each assignment replaces the value left by the one before. *)
Lemma globals_after_each_assignment (n : nat) :
  0 < n <= length module_assignments ->
  globals_after n !! "DEPLOYED_BYTECODE_MD5_HASH"
  = snd <$> module_assignments !! (n - 1).
Proof.
  intros [Hpos Hle]. simpl in Hle.
  destruct n as [|[|[|[|[|n] ] ] ] ]; try lia; vm_compute; reflexivity.
Qed.

Context `{Ledger}.

(** C8: [verify_contract] returns a dictionary whose [sha512_hash] is the
    SHA-512 hex digest of the UTF-8 encoding of the deployed bytecode's hex
    string, and whose [verified] is [True] exactly when that digest equals
    the value of [DEPLOYED_BYTECODE_MD5_HASH]. *)
Theorem verify_contract_spec (ledger_api : LedgerApi)
    (contract_address : string) :
  let digest :=
    sha512_hexdigest
      (encode_utf8 (hex (get_code ledger_api contract_address))) in
  exists expected verified,
    load_global "DEPLOYED_BYTECODE_MD5_HASH" = Ok expected /\
    verify_contract ledger_api contract_address
    = Ok (PyDict [ ("verified", PyBool verified);
                   ("sha512_hash", PyStr digest) ]) /\
    (verified = true <-> digest = expected).
Proof.
  intros digest. unfold verify_contract. fold digest.
  destruct (load_global "DEPLOYED_BYTECODE_MD5_HASH") as [expected|e] eqn:Hl.
  - exists expected, (String.eqb expected digest).
    split; [reflexivity|]. split; [reflexivity|].
    rewrite String.eqb_eq. split; congruence.
  - rewrite load_DEPLOYED_BYTECODE_MD5_HASH in Hl. discriminate.
Qed.


End VerifyContract.


(** A ledger whose contract hashes to the constant in effect is verified. *)
Example verify_contract_verified :
  @ServiceRegistryContract.verify_contract
    (ServiceRegistryContract.fixed_digest_ledger
       "75d2a79df580ba1353211f93c479a9d6b78cc8f14e724290329e274fdcab4dc8cc04adbd8efbbce00a01af2dd6873f7e66a8c338a3d4f87a31ab0e283eef89de")
    tt "0x0000000000000000000000000000000000000000"
  = Ok (PyDict
          [ ("verified", PyBool true);
            ("sha512_hash",
             PyStr "75d2a79df580ba1353211f93c479a9d6b78cc8f14e724290329e274fdcab4dc8cc04adbd8efbbce00a01af2dd6873f7e66a8c338a3d4f87a31ab0e283eef89de") ]).
Proof. vm_compute. reflexivity. Qed.

(** * Further properties *)

(** ** The transition table as a graph *)

Section TableGraph.
Import LiquidityProvisionAbciApp.

Lemma next_round_cls_from_table (c c' : RoundCls) (e : Event) :
  next_round_cls c e = Some c' -> c ∈ table_keys.
Proof.
  intros Heq. destruct c; try compute_done;
    destruct e; vm_compute in Heq; discriminate.
Qed.

Lemma path_trans (allowed : Event -> Prop) (a b c : RoundCls) :
  path allowed a b -> path allowed b c -> path allowed a c.
Proof.
  intros Hab Hbc. induction Hbc as [|b c' e c'' _ IH Hal Hn].
  - exact Hab.
  - exact (path_next allowed a c' e c'' (IH Hab) Hal Hn).
Qed.

Lemma path_step (allowed : Event -> Prop) (c c' : RoundCls) (e : Event) :
  allowed e -> next_round_cls c e = Some c' -> path allowed c c'.
Proof.
  intros Hal Hn. exact (path_next allowed c c e c' (path_here allowed c) Hal Hn).
Qed.

(** [reachable] is [path] from the initial class with every event allowed. *)
Lemma reachable_path (c : RoundCls) :
  reachable c <-> path (fun _ => True) initial_round_cls c.
Proof.
  split.
  - intros Hr. induction Hr as [|c e c' _ IH Hn].
    + apply path_here.
    + exact (path_next _ _ c e c' IH I Hn).
  - intros Hp. remember initial_round_cls as c0 eqn:Hc0.
    induction Hp as [|c0 c e c' _ IH _ Hn].
    + subst. apply reachable_initial.
    + exact (reachable_next c e c' (IH Hc0) Hn).
Qed.

(** X1: the table is closed and has no dead row: an entry exists only for a
    class that is a key of the table, it leads to a class that is a key of
    the table, and each of the 21 keys is reachable from the initial
    round. *)
Theorem table_closed_and_all_rows_reachable :
  (forall c e c',
      next_round_cls c e = Some c' -> c ∈ table_keys /\ c' ∈ table_keys) /\
  (forall c, c ∈ table_keys -> reachable c) /\
  length table_keys = 21.
Proof.
  split; [|split].
  - intros c e c' Hn. split.
    + exact (next_round_cls_from_table c c' e Hn).
    + exact (next_round_cls_in_table c c' e Hn).
  - intros c Hin. apply reachable_iff_table_key. exact Hin.
  - reflexivity.
Qed.

Lemma table_closed_and_all_rows_reachable_witness :
  (EnterPoolTransactionValidationRound ∈ table_keys /\
   EnterPoolRandomnessRound ∈ table_keys) /\
  reachable SwapBackSelectKeeperRound.
Proof.
  split.
  - apply (proj1 table_closed_and_all_rows_reachable
             EnterPoolTransactionValidationRound ROUND_TIMEOUT
             EnterPoolRandomnessRound).
    vm_compute. reflexivity.
  - apply (proj1 (proj2 table_closed_and_all_rows_reachable)).
    compute_done.
Defined.

(** X2: apart from [ROUND_TIMEOUT] in the three validation entries, no key
    is written twice in the display: the round classes are pairwise
    distinct keys and every other event occurs at most once per entry. *)
Theorem duplicate_keys_are_exactly_three :
  NoDup table_keys /\
  forall c e,
    1 < key_occurrences e (display_items c) <->
    e = ROUND_TIMEOUT /\
    c ∈ [ EnterPoolTransactionValidationRound;
          ExitPoolTransactionValidationRound;
          SwapBackTransactionValidationRound ].
Proof.
  split; [exact table_keys_NoDup|].
  intros c e. split.
  - intros Hlt.
    destruct (other_keys_written_at_most_once c e Hlt)
      as [-> [-> | [-> | ->] ] ];
      (split; [reflexivity | compute_done]).
  - intros [-> Hin].
    repeat (apply elem_of_cons in Hin as [-> | Hin]; [vm_compute; lia|]).
    apply elem_of_nil in Hin. contradiction.
Qed.

(** X3: no round of the table is terminal and none loops on itself: every
    key has an entry for [DONE], and no entry leads back to the class it
    belongs to. *)
Theorem every_round_moves_on (c : RoundCls) :
  c ∈ table_keys ->
  (exists c', next_round_cls c DONE = Some c' /\ c' <> c) /\
  (forall e, next_round_cls c e <> Some c).
Proof.
  intros Hin.
  destruct c; try (exfalso; revert Hin; compute_done);
    (split; [eexists; split; [vm_compute; reflexivity | discriminate]
            | intros e; destruct e; vm_compute; discriminate]).
Qed.

Lemma every_round_moves_on_witness :
  (exists c', next_round_cls ResetRound DONE = Some c' /\ c' <> ResetRound) /\
  (forall e, next_round_cls ResetRound e <> Some ResetRound).
Proof.
  apply (every_round_moves_on ResetRound). compute_done.
Defined.

(** X4: the table is cyclic: from every round of the table the driver can
    get to every round of the table. *)
Theorem table_strongly_connected (c c' : RoundCls) :
  c ∈ table_keys -> c' ∈ table_keys -> path (fun _ => True) c c'.
Proof.
  intros Hc Hc'.
  apply (path_trans _ c initial_round_cls c').
  - destruct c; try (exfalso; revert Hc; compute_done);
      first [ apply path_here
            | apply (path_step _ _ _ NO_MAJORITY I); vm_compute; reflexivity ].
  - apply reachable_path, reachable_iff_table_key. exact Hc'.
Qed.

Lemma table_strongly_connected_witness :
  path (fun _ => True) SwapBackSelectKeeperRound EnterPoolTransactionSendRound.
Proof.
  apply table_strongly_connected; compute_done.
Defined.

(** X5: failure always falls back to the reset round: every [NO_MAJORITY]
    entry and every [RESET_TIMEOUT] entry leads to [ResetRound], and so does
    every [ROUND_TIMEOUT] entry except those of the three validation
    rounds. *)
Theorem failure_entries_lead_to_ResetRound (c c' : RoundCls) (e : Event) :
  next_round_cls c e = Some c' ->
  e = NO_MAJORITY \/ e = RESET_TIMEOUT \/
  (e = ROUND_TIMEOUT /\
   end_block_owner c <> Some TransactionValidationBaseRound) ->
  c' = ResetRound.
Proof.
  intros Hn [-> | [-> | [-> Ho] ] ];
    destruct c; vm_compute in Hn; simplify_eq; try reflexivity;
    exfalso; apply Ho; reflexivity.
Qed.

Lemma failure_entries_lead_to_ResetRound_witness :
  next_round_cls EnterPoolTransactionSendRound ROUND_TIMEOUT
  = Some ResetRound.
Proof.
  assert (Hn : exists c',
             next_round_cls EnterPoolTransactionSendRound ROUND_TIMEOUT
             = Some c').
  { eexists. vm_compute. reflexivity. }
  destruct Hn as [c' Hn]. rewrite Hn. f_equal.
  apply (failure_entries_lead_to_ResetRound
           EnterPoolTransactionSendRound c' ROUND_TIMEOUT Hn).
  right. right. split; [reflexivity | discriminate].
Defined.

(** Walks back along [predecessor] while the events met are allowed. *)
Ltac walk_back :=
  lazymatch goal with
  | |- path _ _ ?c =>
      let p := eval vm_compute in (predecessor c) in
      lazymatch p with
      | Some (?q, ?e) =>
          apply (path_next _ _ q e c);
            [walk_back | discriminate | vm_compute; reflexivity]
      | None => apply path_here
      end
  end.

(** X6: without a [ROUND_TIMEOUT] the driver never leaves the enter-pool
    transaction and the reset loop: the classes it can get to from the
    initial round through the other events are exactly those seven, so the
    exit-pool and swap-back rounds are entered only after a
    [ROUND_TIMEOUT]. *)
Theorem without_ROUND_TIMEOUT_only_enter_pool (c : RoundCls) :
  path (fun e => e <> ROUND_TIMEOUT) initial_round_cls c <->
  c ∈ enter_pool_loop.
Proof.
  split.
  - intros Hp. remember initial_round_cls as c0 eqn:Hc0.
    induction Hp as [|c0 c e c' _ IH Hal Hn].
    + subst. compute_done.
    + specialize (IH Hc0). unfold enter_pool_loop in IH.
      repeat (apply elem_of_cons in IH as [-> | IH];
              [ destruct e; try congruence; vm_compute in Hn;
                simplify_eq; compute_done |]).
      apply elem_of_nil in IH. contradiction.
  - intros Hin. unfold enter_pool_loop in Hin.
    repeat (apply elem_of_cons in Hin as [-> | Hin]; [walk_back|]).
    apply elem_of_nil in Hin. contradiction.
Qed.

End TableGraph.

(** X7: the round ids set in this module identify the classes: no two
    classes have the same [round_id]. *)
Theorem round_id_injective (c c' : RoundCls) (id : string) :
  round_id c = Some id -> round_id c' = Some id -> c = c'.
Proof.
  intros Hc Hc'. rewrite <- Hc' in Hc.
  destruct c; destruct c'; simpl in Hc, Hc';
    first [reflexivity | discriminate].
Qed.

Lemma round_id_injective_witness :
  round_id EnterPoolTransactionHashRound = Some "enter_pool_tx_hash" /\
  EnterPoolTransactionHashRound = EnterPoolTransactionHashRound.
Proof.
  split; [reflexivity|].
  apply (round_id_injective _ _ "enter_pool_tx_hash"); reflexivity.
Defined.

(** ** Period state, continued *)

(** An update never removes an attribute. *)
Lemma update_lookup_is_Some (s : PeriodState)
    (kwargs : list (string * PyVal)) (key : string) :
  is_Some (db s !! key) -> is_Some (db (update s kwargs) !! key).
Proof.
  unfold update. simpl.
  induction kwargs as [|[k v] kwargs IH] using rev_ind; intros Hs.
  - exact Hs.
  - rewrite foldl_app. simpl. rewrite lookup_insert.
    destruct (decide (k = key)); [eauto | exact (IH Hs)].
Qed.

(** X8: the property accessors do not interfere: setting an attribute
    changes what the accessor of that name returns and leaves the result of
    every accessor of another name as it was. *)
Theorem PeriodState_properties_independent
    (name name' : string) (accessor accessor' : PeriodState -> Res PyVal)
    (s : PeriodState) (v : PyVal) :
  (name, accessor) ∈ PeriodState_properties ->
  (name', accessor') ∈ PeriodState_properties ->
  name <> name' ->
  accessor (update s [(name, v)]) = Ok v /\
  accessor' (update s [(name, v)]) = accessor' s.
Proof.
  unfold PeriodState_properties. intros Hin Hin' Hne.
  assert (Hacc : forall n a, (n, a) ∈ PeriodState_properties ->
                   forall s0, a s0 = get_strict (db s0) n).
  { unfold PeriodState_properties. intros n a Hn s0.
    repeat (apply elem_of_cons in Hn as [Heq | Hn];
            [injection Heq as -> ->; reflexivity|]).
    apply elem_of_nil in Hn. contradiction. }
  rewrite (Hacc name accessor Hin), !(Hacc name' accessor' Hin').
  unfold get_strict. simpl.
  rewrite lookup_insert_eq, lookup_insert_ne by exact Hne.
  split; reflexivity.
Qed.

Lemma PeriodState_properties_independent_witness :
  final_tx_hash
    (update Concrete.four_agents [("final_tx_hash", PyStr "0xf1")])
  = Ok (PyStr "0xf1") /\
  most_voted_tx_hash
    (update Concrete.four_agents [("final_tx_hash", PyStr "0xf1")])
  = most_voted_tx_hash Concrete.four_agents.
Proof.
  apply (PeriodState_properties_independent
           "final_tx_hash" "most_voted_tx_hash").
  - unfold PeriodState_properties.
    repeat (apply elem_of_cons; first [left; reflexivity | right]).
  - unfold PeriodState_properties.
    repeat (apply elem_of_cons; first [left; reflexivity | right]).
  - discriminate.
Defined.

(** ** End of block, continued *)

Section EndBlockCases.
Context `{Imports}.

Ltac split_cases H :=
  repeat match type of H with
    | context [if ?b then _ else _] => destruct b eqn:?
    | context [mbind _ ?m] => destruct m eqn:?; simpl in H
    end.

(** Everything [end_block] can return, with the test that led to it. *)
Lemma end_block_returns_inv (r : Round) (s : PeriodState) (e : Event) :
  end_block_returns r s e ->
  match end_block_owner (round_cls r) with
  | Some TransactionHashBaseRound =>
      (e = DONE /\ threshold_reached r = true /\
       exists dict_ tx_hash tx_data,
         json_loads (most_voted_payload r) = Ok dict_ /\
         getitem dict_ "tx_hash" = Ok tx_hash /\
         getitem dict_ "tx_data" = Ok tx_data /\
         s = update (period_state r)
               [ ("participant_to_tx_hash",
                  MappingProxyType (collection r));
                 ("most_voted_tx_hash", tx_hash);
                 ("most_voted_tx_data", tx_data) ]) \/
      (e = NO_MAJORITY /\ threshold_reached r = false /\
       s = period_state r)
  | Some TransactionSignatureBaseRound =>
      (e = DONE /\ collection_threshold_reached r = true /\
       s = update (period_state r)
             [ ("participant_to_signature",
                MappingProxyType (collection r)) ]) \/
      (e = NO_MAJORITY /\ collection_threshold_reached r = false /\
       s = period_state r)
  | Some TransactionSendBaseRound =>
      e = DONE /\ has_keeper_sent_payload r = true /\
      s = update (period_state r) [ ("final_tx_hash", keeper_payload r) ]
  | Some TransactionValidationBaseRound =>
      (e = DONE /\ positive_vote_threshold_reached r = true /\
       s = update (period_state r)
             [ ("participant_to_votes", MappingProxyType (collection r)) ]) \/
      (e = EXIT /\ positive_vote_threshold_reached r = false /\
       negative_vote_threshold_reached r = true /\ s = period_state r) \/
      (e = NO_MAJORITY /\ positive_vote_threshold_reached r = false /\
       negative_vote_threshold_reached r = false /\ s = period_state r)
  | Some StrategyEvaluationRound =>
      (threshold_reached r = true /\
       exists action,
         getitem (most_voted_payload r) "action" = Ok action /\
         e = (if eq_StrategyType_GO action then DONE else RESET_TIMEOUT) /\
         s = update (period_state r)
               [ ("participant_to_strategy",
                  MappingProxyType (collection r));
                 ("most_voted_strategy", most_voted_payload r) ]) \/
      (e = NO_MAJORITY /\ threshold_reached r = false /\
       s = period_state r)
  | _ => False
  end.
Proof.
  unfold end_block_returns. intros Hret.
  destruct (end_block_owner (round_cls r)) as [o|] eqn:Ho.
  - rewrite (end_block_of_owner r o Ho) in Hret.
    destruct (end_block_owner_cases _ _ Ho)
      as [-> | [-> | [-> | [-> | ->] ] ] ];
      injection Hret as Hret.
    + unfold TransactionHashBaseRound_end_block in Hret.
      split_cases Hret; simplify_eq; [left | right]; eauto 10.
    + unfold TransactionSignatureBaseRound_end_block in Hret.
      split_cases Hret; simplify_eq; [left | right]; eauto.
    + unfold TransactionSendBaseRound_end_block in Hret.
      split_cases Hret; simplify_eq; eauto.
    + unfold TransactionValidationBaseRound_end_block, exit_event in Hret.
      split_cases Hret; simplify_eq;
        [left | right; left | right; right]; rewrite ?update_nil; eauto.
    + destruct (threshold_reached r) eqn:Ht.
      * left. split; [reflexivity|].
        destruct (getitem (most_voted_payload r) "action")
          as [action|e'] eqn:Ha.
        -- rewrite (StrategyEvaluationRound_end_block_threshold
                      r action Ht Ha) in Hret.
           simplify_eq. eauto.
        -- unfold StrategyEvaluationRound_end_block in Hret.
           rewrite Ht in Hret. unfold most_voted_strategy in Hret.
           rewrite (get_strict_Some _ _ (most_voted_payload r))
             in Hret by apply (update_lookup_last _ [_]).
           simpl in Hret. rewrite Ha in Hret. discriminate.
      * right. unfold StrategyEvaluationRound_end_block in Hret.
        rewrite Ht in Hret. split_cases Hret; simplify_eq. eauto.
  - unfold end_block in Hret. rewrite Ho in Hret. discriminate.
Qed.

(** X9: for [TransactionSignatureBaseRound] and its three subclasses,
    [end_block] returns [DONE] with the whole collection recorded as
    [participant_to_signature] when the collection threshold is reached,
    [NO_MAJORITY] with the prior state when it is not and no majority is
    possible, and [None] otherwise. *)
Theorem TransactionSignatureBaseRound_end_block_cases (r : Round) :
  end_block_owner (round_cls r) = Some TransactionSignatureBaseRound ->
  (collection_threshold_reached r = true ->
   exists state,
     end_block r = Some (Ok (Some (state, DONE))) /\
     participant_to_signature state = Ok (MappingProxyType (collection r)) /\
     forall key, key <> "participant_to_signature" ->
                 db state !! key = db (period_state r) !! key) /\
  (collection_threshold_reached r = false ->
   is_majority_possible (collection r) (nb_participants (period_state r))
   = false ->
   end_block r = Some (Ok (Some (period_state r, NO_MAJORITY)))) /\
  (collection_threshold_reached r = false ->
   is_majority_possible (collection r) (nb_participants (period_state r))
   = true ->
   end_block r = Some (Ok None)).
Proof.
  intros Ho. rewrite (end_block_of_owner r _ Ho).
  unfold TransactionSignatureBaseRound_end_block.
  split; [|split].
  - intros ->. eexists. split; [reflexivity|]. split.
    + apply get_strict_Some. simpl. apply lookup_insert_eq.
    + intros key Hkey. simpl. apply lookup_insert_ne. congruence.
  - intros -> ->. reflexivity.
  - intros -> ->. reflexivity.
Qed.

(** X10: when the threshold is reached and the agreed strategy is a mapping
    with an [action], [StrategyEvaluationRound.end_block] returns [DONE] if
    the action is [StrategyType.GO] and [RESET_TIMEOUT] otherwise; in both
    cases the returned state records the collection as
    [participant_to_strategy] and the agreed strategy as
    [most_voted_strategy] and keeps every other attribute.  Below the
    threshold it returns [NO_MAJORITY] with the prior state or [None]. *)
Theorem StrategyEvaluationRound_end_block_cases (r : Round) :
  round_cls r = StrategyEvaluationRound ->
  (forall action,
      threshold_reached r = true ->
      getitem (most_voted_payload r) "action" = Ok action ->
      exists state,
        end_block r
        = Some (Ok (Some (state, if eq_StrategyType_GO action
                                 then DONE else RESET_TIMEOUT))) /\
        participant_to_strategy state
        = Ok (MappingProxyType (collection r)) /\
        most_voted_strategy state = Ok (most_voted_payload r) /\
        forall key,
          key ∉ ["participant_to_strategy"; "most_voted_strategy"] ->
          db state !! key = db (period_state r) !! key) /\
  (threshold_reached r = false ->
   is_majority_possible (collection r) (nb_participants (period_state r))
   = false ->
   end_block r = Some (Ok (Some (period_state r, NO_MAJORITY)))) /\
  (threshold_reached r = false ->
   is_majority_possible (collection r) (nb_participants (period_state r))
   = true ->
   end_block r = Some (Ok None)).
Proof.
  intros Hc.
  rewrite (end_block_of_owner r StrategyEvaluationRound)
    by (rewrite Hc; reflexivity).
  split; [|split].
  - intros action Ht Ha.
    rewrite (StrategyEvaluationRound_end_block_threshold r action Ht Ha).
    eexists. split; [reflexivity|].
    unfold participant_to_strategy, most_voted_strategy. repeat split.
    + apply get_strict_Some. simpl.
      rewrite lookup_insert_ne by discriminate. apply lookup_insert_eq.
    + apply get_strict_Some. simpl. apply lookup_insert_eq.
    + intros key Hkey. apply update_lookup_other. exact Hkey.
  - intros Ht Hm. unfold StrategyEvaluationRound_end_block.
    rewrite Ht, Hm. reflexivity.
  - intros Ht Hm. unfold StrategyEvaluationRound_end_block.
    rewrite Ht, Hm. reflexivity.
Qed.

(** X11: when the threshold is reached and the agreed strategy has no
    [action], [StrategyEvaluationRound.end_block] raises and returns no
    event: [KeyError] for a mapping without that key, [TypeError] for a
    value that is not a mapping. *)
Theorem StrategyEvaluationRound_end_block_raises (r : Round) :
  round_cls r = StrategyEvaluationRound ->
  threshold_reached r = true ->
  (forall items,
      most_voted_payload r = PyDict items -> assoc "action" items = None ->
      end_block r = Some (Raise (KeyError "action"))) /\
  ((forall items, most_voted_payload r <> PyDict items) ->
   end_block r = Some (Raise TypeError)).
Proof.
  intros Hc Ht.
  rewrite (end_block_of_owner r StrategyEvaluationRound)
    by (rewrite Hc; reflexivity).
  unfold StrategyEvaluationRound_end_block. rewrite Ht.
  unfold most_voted_strategy.
  rewrite (get_strict_Some _ _ (most_voted_payload r))
    by apply (update_lookup_last _ [_]).
  simpl. split.
  - intros items -> Hnone. simpl. rewrite Hnone. reflexivity.
  - intros Hnot. destruct (most_voted_payload r) as [| | | | | |items|];
      try reflexivity.
    exfalso. exact (Hnot items eq_refl).
Qed.

(** X12: for [TransactionHashBaseRound] and its three subclasses, when the
    threshold is reached and the most voted payload does not decode, or
    decodes to a value without [tx_hash] or without [tx_data], [end_block]
    raises the exception of the failing step and returns no event. *)
Theorem TransactionHashBaseRound_end_block_propagates (r : Round) (e : Exn) :
  end_block_owner (round_cls r) = Some TransactionHashBaseRound ->
  threshold_reached r = true ->
  (json_loads (most_voted_payload r) = Raise e \/
   exists dict_,
     json_loads (most_voted_payload r) = Ok dict_ /\
     (getitem dict_ "tx_hash" = Raise e \/
      (exists h, getitem dict_ "tx_hash" = Ok h) /\
      getitem dict_ "tx_data" = Raise e)) ->
  end_block r = Some (Raise e).
Proof.
  intros Ho Ht Hcases. rewrite (end_block_of_owner r _ Ho).
  rewrite (TransactionHashBaseRound_end_block_raises r e Ht Hcases).
  reflexivity.
Qed.

(** X13: no [end_block] of this module returns [WAIT] or [ROUND_TIMEOUT];
    [RESET_TIMEOUT] is returned by [StrategyEvaluationRound] only and
    [EXIT] by the validation rounds only. *)
Theorem end_block_event_producers
    (r : Round) (s : PeriodState) (e : Event) :
  end_block_returns r s e ->
  e <> WAIT /\ e <> ROUND_TIMEOUT /\
  (e = RESET_TIMEOUT -> round_cls r = StrategyEvaluationRound) /\
  (e = EXIT ->
   end_block_owner (round_cls r) = Some TransactionValidationBaseRound).
Proof.
  intros Hret. apply end_block_event_cases in Hret.
  destruct (round_cls r); simpl in Hret; try contradiction;
    intuition (subst; (discriminate || reflexivity)).
Qed.

(** X14: a negative vote leaves the period state as it was: when a
    validation round returns [EXIT] the positive threshold was not reached,
    the negative one was, and the returned state is the prior state, so the
    votes are not recorded. *)
Theorem EXIT_returns_prior_state (r : Round) (s : PeriodState) :
  end_block_returns r s EXIT ->
  s = period_state r /\
  positive_vote_threshold_reached r = false /\
  negative_vote_threshold_reached r = true.
Proof.
  intros Hret. pose proof (end_block_returns_inv r s EXIT Hret) as Hinv.
  destruct (end_block_owner (round_cls r)) as [o|]; [|contradiction].
  destruct o; try contradiction.
  - destruct Hinv as [ [He _] | [He _] ]; discriminate.
  - destruct Hinv as [ [He _] | [He _] ]; discriminate.
  - destruct Hinv as [He _]; discriminate.
  - destruct Hinv as [ [He _] | [ [_ [Hp [Hn Hs] ] ] | [He _] ] ];
      try discriminate.
    auto.
  - destruct Hinv as [ [_ [action [_ [He _] ] ] ] | [He _] ];
      [destruct (eq_StrategyType_GO action)|]; discriminate.
Qed.

(** X15: whatever an [end_block] returns, the returned state differs from
    the prior one at most in the attributes that its class passes to
    [update], and no attribute of the prior state is lost. *)
Theorem end_block_frame
    (r : Round) (s : PeriodState) (e : Event) (owner : RoundCls) :
  end_block_returns r s e ->
  end_block_owner (round_cls r) = Some owner ->
  (forall key, key ∉ written_attributes owner ->
               db s !! key = db (period_state r) !! key) /\
  (forall key, is_Some (db (period_state r) !! key) ->
               is_Some (db s !! key)).
Proof.
  intros Hret Ho. pose proof (end_block_returns_inv r s e Hret) as Hinv.
  rewrite Ho in Hinv.
  assert (Hupd : (exists kwargs,
                     s = update (period_state r) kwargs /\
                     map fst kwargs = written_attributes owner) \/
                 s = period_state r).
  { destruct owner; try contradiction.
    - destruct Hinv as [ [_ [_ [d [h [t [_ [_ [_ ->] ] ] ] ] ] ] ] | [_ [_ ->] ] ];
        [left; eexists; split; reflexivity | right; reflexivity].
    - destruct Hinv as [ [_ [_ ->] ] | [_ [_ ->] ] ];
        [left; eexists; split; reflexivity | right; reflexivity].
    - destruct Hinv as [_ [_ ->] ]. left; eexists; split; reflexivity.
    - destruct Hinv as [ [_ [_ ->] ] | [ [_ [_ [_ ->] ] ] | [_ [_ [_ ->] ] ] ] ];
        [left; eexists; split; reflexivity | right; reflexivity
        | right; reflexivity].
    - destruct Hinv as [ [_ [a [_ [_ ->] ] ] ] | [_ [_ ->] ] ];
        [left; eexists; split; reflexivity | right; reflexivity]. }
  destruct Hupd as [ [kwargs [-> Hk] ] | ->].
  - split.
    + intros key Hkey. apply update_lookup_other. rewrite Hk. exact Hkey.
    + intros key. apply update_lookup_is_Some.
  - split; auto.
Qed.

(** X16: one transaction of the cycle keeps what each of its rounds has
    agreed on.  When the hash, signature, send and validation rounds each
    start from the state the round before returned and each return [DONE],
    the final state gives the transaction hash and data decoded in the
    first round, the submissions of the hash, signature and validation
    rounds, and the keeper's payload of the send round. *)
Theorem transaction_cycle_keeps_results
    (r1 r2 r3 r4 : Round) (s1 s2 s3 s4 : PeriodState) :
  end_block_owner (round_cls r1) = Some TransactionHashBaseRound ->
  end_block_owner (round_cls r2) = Some TransactionSignatureBaseRound ->
  end_block_owner (round_cls r3) = Some TransactionSendBaseRound ->
  end_block_owner (round_cls r4) = Some TransactionValidationBaseRound ->
  end_block_returns r1 s1 DONE -> period_state r2 = s1 ->
  end_block_returns r2 s2 DONE -> period_state r3 = s2 ->
  end_block_returns r3 s3 DONE -> period_state r4 = s3 ->
  end_block_returns r4 s4 DONE ->
  (exists dict_ tx_hash tx_data,
      json_loads (most_voted_payload r1) = Ok dict_ /\
      getitem dict_ "tx_hash" = Ok tx_hash /\
      getitem dict_ "tx_data" = Ok tx_data /\
      most_voted_tx_hash s4 = Ok tx_hash /\
      most_voted_tx_data s4 = Ok tx_data) /\
  participant_to_tx_hash s4 = Ok (MappingProxyType (collection r1)) /\
  participant_to_signature s4 = Ok (MappingProxyType (collection r2)) /\
  final_tx_hash s4 = Ok (keeper_payload r3) /\
  participant_to_votes s4 = Ok (MappingProxyType (collection r4)).
Proof.
  intros Ho1 Ho2 Ho3 Ho4 Hr1 Hs1 Hr2 Hs2 Hr3 Hs3 Hr4.
  pose proof (end_block_returns_inv r1 s1 DONE Hr1) as H1.
  pose proof (end_block_returns_inv r2 s2 DONE Hr2) as H2.
  pose proof (end_block_returns_inv r3 s3 DONE Hr3) as H3.
  pose proof (end_block_returns_inv r4 s4 DONE Hr4) as H4.
  rewrite Ho1 in H1. rewrite Ho2 in H2. rewrite Ho3 in H3. rewrite Ho4 in H4.
  destruct H1 as [ [_ [_ [dict_ [h [d [Hj [Hh [Hd E1] ] ] ] ] ] ] ] | [He _] ];
    [|discriminate].
  destruct H2 as [ [_ [_ E2] ] | [He _] ]; [|discriminate].
  destruct H3 as [_ [_ E3] ].
  destruct H4 as [ [_ [_ E4] ] | [ [He _] | [He _] ] ]; try discriminate.
  rewrite E4, Hs3, E3, Hs2, E2, Hs1, E1.
  unfold most_voted_tx_hash, most_voted_tx_data, participant_to_tx_hash,
    participant_to_signature, final_tx_hash, participant_to_votes.
  split; [exists dict_, h, d; repeat split; try assumption|repeat split];
    apply get_strict_Some; simpl;
    rewrite ?lookup_insert_ne by discriminate; apply lookup_insert_eq.
Qed.

End EndBlockCases.

(** ** The further properties on concrete inputs *)

Lemma TransactionSignatureBaseRound_end_block_cases_witness :
  (exists state,
      @end_block Concrete.imports ConcreteCycle.signature_round
      = Some (Ok (Some (state, DONE))) /\
      participant_to_signature state
      = Ok (MappingProxyType (collection ConcreteCycle.signature_round))) /\
  @end_block Concrete.imports ConcreteCycle.signature_round_split
  = Some (Ok (Some (ConcreteCycle.six_agents, NO_MAJORITY))) /\
  @end_block Concrete.imports ConcreteCycle.signature_round_few
  = Some (Ok None).
Proof.
  split; [|split].
  - destruct (proj1 (@TransactionSignatureBaseRound_end_block_cases
                       Concrete.imports ConcreteCycle.signature_round
                       eq_refl) eq_refl)
      as [state [He [Hp _] ] ].
    exists state. split; assumption.
  - exact (proj1 (proj2 (@TransactionSignatureBaseRound_end_block_cases
                           Concrete.imports
                           ConcreteCycle.signature_round_split eq_refl))
             eq_refl eq_refl).
  - exact (proj2 (proj2
             (@TransactionSignatureBaseRound_end_block_cases
                Concrete.imports ConcreteCycle.signature_round_few eq_refl))
             eq_refl eq_refl).
Defined.

Lemma StrategyEvaluationRound_end_block_cases_witness :
  (exists state,
      @end_block Concrete.imports ConcreteCycle.strategy_round_go
      = Some (Ok (Some (state, DONE))) /\
      most_voted_strategy state
      = Ok (PyDict [ ("action", Concrete.StrategyType_GO) ])) /\
  (exists state,
      @end_block Concrete.imports Concrete.strategy_round_wait
      = Some (Ok (Some (state, RESET_TIMEOUT))) /\
      most_voted_strategy state
      = Ok (PyDict [ ("action", Concrete.StrategyType_WAIT) ])) /\
  @end_block Concrete.imports ConcreteCycle.strategy_round_waiting
  = Some (Ok None).
Proof.
  split; [|split].
  - destruct (proj1 (@StrategyEvaluationRound_end_block_cases
                       Concrete.imports ConcreteCycle.strategy_round_go
                       eq_refl)
                Concrete.StrategyType_GO eq_refl eq_refl)
      as [state [He [_ [Hm _] ] ] ].
    exists state. split; assumption.
  - destruct (proj1 (@StrategyEvaluationRound_end_block_cases
                       Concrete.imports Concrete.strategy_round_wait
                       eq_refl)
                Concrete.StrategyType_WAIT eq_refl eq_refl)
      as [state [He [_ [Hm _] ] ] ].
    exists state. split; assumption.
  - exact (proj2 (proj2 (@StrategyEvaluationRound_end_block_cases
                           Concrete.imports
                           ConcreteCycle.strategy_round_waiting eq_refl))
             eq_refl eq_refl).
Defined.

Lemma StrategyEvaluationRound_end_block_raises_witness :
  @end_block Concrete.imports ConcreteCycle.strategy_round_no_action
  = Some (Raise (KeyError "action")) /\
  @end_block Concrete.imports ConcreteCycle.strategy_round_string
  = Some (Raise TypeError).
Proof.
  split.
  - exact (proj1 (@StrategyEvaluationRound_end_block_raises
                    Concrete.imports ConcreteCycle.strategy_round_no_action
                    eq_refl eq_refl)
             [ ("pair", PyStr "0xab") ] eq_refl eq_refl).
  - apply (proj2 (@StrategyEvaluationRound_end_block_raises
                    Concrete.imports ConcreteCycle.strategy_round_string
                    eq_refl eq_refl)).
    intros items. discriminate.
Defined.

Lemma TransactionHashBaseRound_end_block_propagates_witness :
  @end_block Concrete.imports Concrete.hash_round_undecodable
  = Some (Raise JSONDecodeError) /\
  @end_block Concrete.imports ConcreteCycle.hash_round_empty_object
  = Some (Raise (KeyError "tx_hash")).
Proof.
  split.
  - apply (@TransactionHashBaseRound_end_block_propagates Concrete.imports);
      [reflexivity | reflexivity | left; reflexivity].
  - apply (@TransactionHashBaseRound_end_block_propagates Concrete.imports);
      [reflexivity | reflexivity |].
    right. exists (PyDict []). split; [reflexivity|]. left. reflexivity.
Defined.

Lemma end_block_event_producers_witness :
  exists s,
    @end_block_returns Concrete.imports Concrete.strategy_round_wait
      s RESET_TIMEOUT /\
    RESET_TIMEOUT <> WAIT /\ RESET_TIMEOUT <> ROUND_TIMEOUT /\
    round_cls Concrete.strategy_round_wait = StrategyEvaluationRound.
Proof.
  eexists. assert (Hret : @end_block_returns Concrete.imports
                            Concrete.strategy_round_wait _ RESET_TIMEOUT)
    by reflexivity.
  split; [exact Hret|].
  destruct (@end_block_event_producers Concrete.imports _ _ _ Hret)
    as [Hw [Ht [Hr _] ] ].
  split; [exact Hw|]. split; [exact Ht|]. exact (Hr eq_refl).
Defined.

Lemma EXIT_returns_prior_state_witness :
  @end_block_returns Concrete.imports
    (Concrete.validation_round Concrete.votes_negative)
    Concrete.four_agents EXIT /\
  Concrete.four_agents
  = period_state (Concrete.validation_round Concrete.votes_negative).
Proof.
  assert (Hret : @end_block_returns Concrete.imports
                   (Concrete.validation_round Concrete.votes_negative)
                   Concrete.four_agents EXIT)
    by reflexivity.
  split; [exact Hret|].
  exact (proj1 (@EXIT_returns_prior_state Concrete.imports _ _ Hret)).
Defined.

Lemma end_block_frame_witness :
  @end_block_returns Concrete.imports ConcreteCycle.hash_round
    ConcreteCycle.state_after_hash DONE /\
  db ConcreteCycle.state_after_hash !! "participants"
  = db Concrete.four_agents !! "participants".
Proof.
  assert (Hret : @end_block_returns Concrete.imports ConcreteCycle.hash_round
                   ConcreteCycle.state_after_hash DONE)
    by reflexivity.
  split; [exact Hret|].
  apply (proj1 (@end_block_frame Concrete.imports _ _ _
                  TransactionHashBaseRound Hret eq_refl)).
  simpl. rewrite !elem_of_cons, elem_of_nil.
  intros [Heq | [Heq | [Heq | [] ] ] ]; discriminate.
Defined.

Lemma transaction_cycle_keeps_results_witness :
  most_voted_tx_hash ConcreteCycle.state_after_validation
  = Ok (PyStr "0xabc") /\
  most_voted_tx_data ConcreteCycle.state_after_validation
  = Ok (PyStr "0x00") /\
  participant_to_signature ConcreteCycle.state_after_validation
  = Ok (MappingProxyType (collection ConcreteCycle.signature_round)) /\
  final_tx_hash ConcreteCycle.state_after_validation = Ok (PyStr "0xf1") /\
  participant_to_votes ConcreteCycle.state_after_validation
  = Ok (MappingProxyType (collection ConcreteCycle.validation_round)).
Proof.
  destruct (@transaction_cycle_keeps_results Concrete.imports
              ConcreteCycle.hash_round ConcreteCycle.signature_round
              ConcreteCycle.send_round ConcreteCycle.validation_round
              ConcreteCycle.state_after_hash
              ConcreteCycle.state_after_signature
              ConcreteCycle.state_after_send
              ConcreteCycle.state_after_validation
              eq_refl eq_refl eq_refl eq_refl
              eq_refl eq_refl eq_refl eq_refl eq_refl eq_refl eq_refl)
    as [ [dict_ [h [d [Hj [Hh [Hd [Hmh Hmd] ] ] ] ] ] ] [_ [Hsig [Hf Hv] ] ] ].
  injection Hj as <-. injection Hh as <-. injection Hd as <-.
  repeat split; assumption.
Defined.

(** ** Service registry contract, continued *)

Section ServiceInfo.
Import ServiceRegistryContract.
Context `{ContractCalls}.

(** X17: when the [getServiceInfo] call answers with a sequence of at least
    eleven outputs, [get_service_info] returns a dictionary with the eleven
    keywords in order, bound to the first eleven outputs: looking the i-th
    keyword up gives the i-th output, and further outputs are ignored. *)
Theorem get_service_info_returns (ledger_api : LedgerApi)
    (contract_address : string) (service_id : Z) (outputs : list PyVal) :
  contract_method_call ledger_api (get_instance ledger_api contract_address)
    "getServiceInfo" service_id = PyList outputs ->
  11 <= length outputs ->
  get_service_info ledger_api contract_address service_id
  = Returns (PyDict (zip service_info_keys (take 11 outputs))) /\
  forall i key v,
    service_info_keys !! i = Some key ->
    outputs !! i = Some v ->
    getitem (PyDict (zip service_info_keys (take 11 outputs))) key = Ok v.
Proof.
  intros Hcall Hlen. unfold get_service_info. rewrite Hcall.
  do 11 (destruct outputs as [|? outputs]; [simpl in Hlen; lia|]).
  split; [reflexivity|].
  intros i key v Hkey Hout.
  do 11 (destruct i as [|i];
         [simpl in Hkey, Hout; simplify_eq; reflexivity|]).
  discriminate.
Qed.

(** X18: [get_service_info] raises instead of returning a partial
    dictionary: [IndexError] when the call answers with fewer than eleven
    outputs, a [TypeError] when it answers [None], and a [KeyError] for the
    key [0] when it answers with a mapping. *)
Theorem get_service_info_raises (ledger_api : LedgerApi)
    (contract_address : string) (service_id : Z) :
  (forall outputs,
      contract_method_call ledger_api
        (get_instance ledger_api contract_address)
        "getServiceInfo" service_id = PyList outputs ->
      length outputs < 11 ->
      get_service_info ledger_api contract_address service_id
      = Raises IndexError) /\
  (contract_method_call ledger_api (get_instance ledger_api contract_address)
     "getServiceInfo" service_id = PyNone ->
   get_service_info ledger_api contract_address service_id
   = Raises NotSubscriptable) /\
  (forall items,
      contract_method_call ledger_api
        (get_instance ledger_api contract_address)
        "getServiceInfo" service_id = PyDict items ->
      get_service_info ledger_api contract_address service_id
      = Raises (IntKeyError 0)).
Proof.
  unfold get_service_info. split; [|split].
  - intros outputs -> Hlen.
    do 11 (destruct outputs as [|? outputs]; [reflexivity|]).
    simpl in Hlen. lia.
  - intros ->. reflexivity.
  - intros items ->. reflexivity.
Qed.

End ServiceInfo.

Lemma get_service_info_returns_witness :
  @ServiceRegistryContract.get_service_info _
    (ServiceRegistryContract.fixed_answer_calls EmptyString
       (PyList (map PyInt [10; 11; 12; 13; 14; 15; 16; 17; 18; 19; 20; 21]%Z)))
    tt "0x0000000000000000000000000000000000000000" 1%Z
  = ServiceRegistryContract.Returns
      (PyDict (zip ServiceRegistryContract.service_info_keys
                 (map PyInt [10; 11; 12; 13; 14; 15; 16; 17; 18; 19; 20]%Z)))
  /\
  getitem
    (PyDict (zip ServiceRegistryContract.service_info_keys
               (map PyInt [10; 11; 12; 13; 14; 15; 16; 17; 18; 19; 20]%Z)))
    "multisig"
  = Ok (PyInt 20).
Proof.
  destruct (@get_service_info_returns _
              (ServiceRegistryContract.fixed_answer_calls EmptyString
                 (PyList (map PyInt
                            [10; 11; 12; 13; 14; 15; 16; 17; 18; 19; 20; 21]%Z)))
              tt "0x0000000000000000000000000000000000000000" 1%Z
              (map PyInt [10; 11; 12; 13; 14; 15; 16; 17; 18; 19; 20; 21]%Z)
              eq_refl ltac:(simpl; lia))
    as [Hret Hget].
  split; [exact Hret|].
  exact (Hget 10 "multisig" (PyInt 20) eq_refl eq_refl).
Defined.

Lemma get_service_info_raises_witness :
  @ServiceRegistryContract.get_service_info _
    (ServiceRegistryContract.fixed_answer_calls EmptyString
       (PyList [PyStr "0xa0"; PyStr "service"]))
    tt "0x0000000000000000000000000000000000000000" 1%Z
  = ServiceRegistryContract.Raises ServiceRegistryContract.IndexError /\
  @ServiceRegistryContract.get_service_info _
    (ServiceRegistryContract.fixed_answer_calls EmptyString PyNone)
    tt "0x0000000000000000000000000000000000000000" 1%Z
  = ServiceRegistryContract.Raises ServiceRegistryContract.NotSubscriptable.
Proof.
  split.
  - apply (proj1 (@get_service_info_raises _
                    (ServiceRegistryContract.fixed_answer_calls EmptyString
                       (PyList [PyStr "0xa0"; PyStr "service"]))
                    tt _ 1%Z)
             [PyStr "0xa0"; PyStr "service"] eq_refl).
    simpl. lia.
  - exact (proj1 (proj2 (@get_service_info_raises _
                           (ServiceRegistryContract.fixed_answer_calls
                              EmptyString PyNone)
                           tt _ 1%Z)) eq_refl).
Defined.
